(** * mosrs-setup: a shallow embedding of [mosrs/setup.py] and [mosrs/access.py]

    The console script [mosrs-setup] checks the Rose client, starts the GPG
    agent, asks whether the user holds a MOSRS account, has the credentials
    checked and finally patches [~/.bashrc] so that the agent is
    started on login.  The script [mosrs/access.py] presets the NCI password
    in the agent under the Subversion realm keys.

    Python 2 [str] values are byte strings and are modelled by [string];
    the file system is a finite map from paths to contents; console output,
    prompts and calls of collaborators are recorded as a trace of events. *)

From Stdlib Require Import ZArith List Ascii String Bool Lia.
From stdpp Require Import base gmap strings.

Import ListNotations.
Local Open Scope string_scope.

(** ** Python 2 string operations *)

Module Py.

Definition nl : string := String "010"%char EmptyString.
Definition dq : string := String "034"%char EmptyString.

(** [s.startswith(p)] *)
Fixpoint startswith (p s : string) : bool :=
  match p, s with
  | EmptyString, _ => true
  | String a p', String b s' => if Ascii.eqb a b then startswith p' s' else false
  | String _ _, EmptyString => false
  end.

(** [s.find(sub)]: the lowest index at which [sub] occurs, [None] for
    Python's [-1]. *)
Fixpoint find_opt (sub s : string) : option nat :=
  if startswith sub s then Some 0
  else match s with
       | EmptyString => None
       | String _ s' => option_map S (find_opt sub s')
       end.

Definition find (sub s : string) : Z :=
  match find_opt sub s with
  | Some i => Z.of_nat i
  | None => (-1)%Z
  end.

(** [sub in s] *)
Definition contains (sub s : string) : bool :=
  match find_opt sub s with Some _ => true | None => false end.

Fixpoint take (n : nat) (s : string) : string :=
  match n, s with
  | S n', String a s' => String a (take n' s')
  | _, _ => EmptyString
  end.

Fixpoint drop (n : nat) (s : string) : string :=
  match n, s with
  | S n', String _ s' => drop n' s'
  | _, _ => s
  end.

(** A slice bound as Python normalises it: a negative index counts from the
    end and everything is clamped to [0 .. len(s)]. *)
Definition slice_index (s : string) (i : Z) : nat :=
  if (i <? 0)%Z then Z.to_nat (Z.of_nat (String.length s) + i) else Z.to_nat i.

(** [s[:i]] and [s[i:]] *)
Definition slice_to (s : string) (i : Z) : string := take (slice_index s i) s.
Definition slice_from (s : string) (i : Z) : string := drop (slice_index s i) s.

(** The characters [str.strip()] removes: space, tab, newline, return,
    vertical tab and form feed. *)
Definition is_space (c : ascii) : bool :=
  let n := nat_of_ascii c in
  Nat.eqb n 32 || (Nat.leb 9 n && Nat.leb n 13).

Fixpoint lstrip (s : string) : string :=
  match s with
  | String c s' => if is_space c then lstrip s' else s
  | EmptyString => EmptyString
  end.

Fixpoint rstrip (s : string) : string :=
  match s with
  | EmptyString => EmptyString
  | String c s' =>
      match rstrip s' with
      | EmptyString => if is_space c then EmptyString else String c EmptyString
      | r => String c r
      end
  end.

Definition strip (s : string) : string := rstrip (lstrip s).

Definition lower_char (c : ascii) : ascii :=
  let n := nat_of_ascii c in
  if Nat.leb 65 n && Nat.leb n 90 then ascii_of_nat (n + 32) else c.

(** [s.lower()] *)
Fixpoint lower (s : string) : string :=
  match s with
  | EmptyString => EmptyString
  | String c s' => String (lower_char c) (lower s')
  end.

(** [x in l] for a list of strings *)
Definition str_in (x : string) (l : list string) : bool :=
  existsb (String.eqb x) l.

(** [sep.join(l)] *)
Fixpoint join (sep : string) (l : list string) : string :=
  match l with
  | [] => EmptyString
  | [x] => x
  | x :: l' => x +:+ sep +:+ join sep l'
  end.

(** [s.split(sep)] for a one-character separator. *)
Fixpoint split_char (sep : ascii) (s : string) : list string :=
  match s with
  | EmptyString => [EmptyString]
  | String c s' =>
      if Ascii.eqb c sep then EmptyString :: split_char sep s'
      else match split_char sep s' with
           | [] => [String c EmptyString]
           | l :: ls => String c l :: ls
           end
  end.

(** [posixpath.join(a, b)] *)
Definition endswith_slash (a : string) : bool :=
  match String.length a with
  | O => false
  | S n => String.eqb (drop n a) "/"
  end.

Definition path_join (a b : string) : string :=
  if startswith "/" b then b
  else if String.eqb a EmptyString || endswith_slash a then a +:+ b
  else a +:+ "/" +:+ b.

(** *** [textwrap.dedent] *)

Definition is_blank (c : ascii) : bool :=
  Ascii.eqb c " "%char || Ascii.eqb c "009"%char.

Fixpoint all_blank (s : string) : bool :=
  match s with
  | EmptyString => true
  | String c s' => is_blank c && all_blank s'
  end.

(** The leading run of spaces and tabs of a line. *)
Fixpoint leading_blank (s : string) : string :=
  match s with
  | String c s' => if is_blank c then String c (leading_blank s') else EmptyString
  | EmptyString => EmptyString
  end.

Fixpoint common_prefix (a b : string) : string :=
  match a, b with
  | String x a', String y b' =>
      if Ascii.eqb x y then String x (common_prefix a' b') else EmptyString
  | _, _ => EmptyString
  end.

(** The margin: the longest common leading whitespace of the lines that
    hold something else than whitespace. *)
Fixpoint dedent_margin (margin : option string) (lines : list string) : option string :=
  match lines with
  | [] => margin
  | l :: ls =>
      let indent := leading_blank l in
      match margin with
      | None => dedent_margin (Some indent) ls
      | Some m => dedent_margin (Some (common_prefix m indent)) ls
      end
  end.

Definition remove_margin (m l : string) : string :=
  if startswith m l then drop (String.length m) l else l.

Definition dedent (text : string) : string :=
  let lines := split_char "010"%char text in
  (* whitespace-only lines are emptied *)
  let lines := map (fun l => if all_blank l then EmptyString else l) lines in
  let margin := dedent_margin None (filter (fun l => negb (all_blank l)) lines) in
  match margin with
  | Some m => join nl (map (remove_margin m) lines)
  | None => join nl lines
  end.

(** A triple-quoted literal, line by line. *)
Definition text (lines : list string) : string := join nl lines.

End Py.

(** ** [hashlib.md5] (RFC 1321)

    Words are 32-bit unsigned integers held in [Z]; every addition wraps
    modulo [2^32]. *)

Module MD5.
Local Open Scope Z_scope.

Definition w32 (x : Z) : Z := x mod 2 ^ 32.

Definition not32 (x : Z) : Z := Z.lxor x 4294967295.

Definition rotl (x c : Z) : Z :=
  w32 (Z.lor (Z.shiftl x c) (Z.shiftr x (32 - c))).

(** [K[i] = floor(2^32 * abs(sin(i + 1)))] *)
Definition K : list Z :=
  [ 3614090360; 3905402710; 606105819; 3250441966;
    4118548399; 1200080426; 2821735955; 4249261313;
    1770035416; 2336552879; 4294925233; 2304563134;
    1804603682; 4254626195; 2792965006; 1236535329;
    4129170786; 3225465664; 643717713; 3921069994;
    3593408605; 38016083; 3634488961; 3889429448;
    568446438; 3275163606; 4107603335; 1163531501;
    2850285829; 4243563512; 1735328473; 2368359562;
    4294588738; 2272392833; 1839030562; 4259657740;
    2763975236; 1272893353; 4139469664; 3200236656;
    681279174; 3936430074; 3572445317; 76029189;
    3654602809; 3873151461; 530742520; 3299628645;
    4096336452; 1126891415; 2878612391; 4237533241;
    1700485571; 2399980690; 4293915773; 2240044497;
    1873313359; 4264355552; 2734768916; 1309151649;
    4149444226; 3174756917; 718787259; 3951481745 ].

(** Per-round left-rotation amounts. *)
Definition shifts : list Z :=
  [ 7; 12; 17; 22; 7; 12; 17; 22; 7; 12; 17; 22; 7; 12; 17; 22;
    5; 9; 14; 20; 5; 9; 14; 20; 5; 9; 14; 20; 5; 9; 14; 20;
    4; 11; 16; 23; 4; 11; 16; 23; 4; 11; 16; 23; 4; 11; 16; 23;
    6; 10; 15; 21; 6; 10; 15; 21; 6; 10; 15; 21; 6; 10; 15; 21 ].

Definition state : Type := Z * Z * Z * Z.

Definition init : state := (1732584193, 4023233417, 2562383102, 271733878).

(** A little-endian word of four bytes. *)
Definition word_of_bytes (bs : list Z) : Z :=
  nth 0 bs 0 + 256 * nth 1 bs 0 + 65536 * nth 2 bs 0 + 16777216 * nth 3 bs 0.

Fixpoint words (n : nat) (bs : list Z) : list Z :=
  match n with
  | O => []
  | S n' => word_of_bytes (firstn 4 bs) :: words n' (skipn 4 bs)
  end.

Definition step (M : list Z) (st : state) (i : nat) : state :=
  let '(a, b, c, d) := st in
  let zi := Z.of_nat i in
  let '(f, g) :=
    if zi <? 16 then (Z.lor (Z.land b c) (Z.land (not32 b) d), zi)
    else if zi <? 32 then (Z.lor (Z.land d b) (Z.land (not32 d) c), (5 * zi + 1) mod 16)
    else if zi <? 48 then (Z.lxor (Z.lxor b c) d, (3 * zi + 5) mod 16)
    else (Z.lxor c (Z.lor b (not32 d)), (7 * zi) mod 16) in
  let f' := w32 (f + a + nth i K 0 + nth (Z.to_nat g) M 0) in
  (d, w32 (b + rotl f' (nth i shifts 0)), b, c).

(** One 64-byte block. *)
Definition block (bs : list Z) (st : state) : state :=
  let '(a0, b0, c0, d0) := st in
  let '(a, b, c, d) := fold_left (step (words 16 bs)) (seq 0 64) st in
  (w32 (a0 + a), w32 (b0 + b), w32 (c0 + c), w32 (d0 + d)).

Fixpoint blocks (n : nat) (bs : list Z) (st : state) : state :=
  match n with
  | O => st
  | S n' => blocks n' (skipn 64 bs) (block (firstn 64 bs) st)
  end.

Fixpoint le_bytes (n : nat) (x : Z) : list Z :=
  match n with
  | O => []
  | S n' => x mod 256 :: le_bytes n' (x / 256)
  end.

(** The message, a [0x80] byte, zeros up to 56 modulo 64, and the bit
    length on eight bytes. *)
Definition pad (msg : list Z) : list Z :=
  let len := Z.of_nat (List.length msg) in
  msg ++ [128] ++ repeat 0 (Z.to_nat ((55 - len) mod 64))
      ++ le_bytes 8 ((8 * len) mod 2 ^ 64).

Definition digest_state (msg : list Z) : state :=
  let p := pad msg in
  blocks (List.length p / 64) p init.

Definition hex_digit (x : Z) : ascii :=
  if x <? 10 then ascii_of_nat (48 + Z.to_nat x) else ascii_of_nat (87 + Z.to_nat x).

Definition hex_byte (b : Z) (rest : string) : string :=
  String (hex_digit (b / 16)) (String (hex_digit (b mod 16)) rest).

Definition hex_word (w : Z) (rest : string) : string :=
  hex_byte (w mod 256)
    (hex_byte ((w / 256) mod 256)
       (hex_byte ((w / 65536) mod 256)
          (hex_byte ((w / 16777216) mod 256) rest))).

Definition hex_state (st : state) : string :=
  let '(a, b, c, d) := st in
  hex_word a (hex_word b (hex_word c (hex_word d EmptyString))).

Definition bytes_of_string (s : string) : list Z :=
  map (fun c => Z.of_nat (nat_of_ascii c)) (list_ascii_of_string s).

(** [md5(s).hexdigest()] *)
Definition hexdigest (s : string) : string :=
  hex_state (digest_state (bytes_of_string s)).

End MD5.

(** ** The world the scripts run in *)

(** What the user and the collaborators can observe of a run, in order. *)
Inductive Event : Type :=
| Print (s : string)               (* [print(s)] *)
| Info (s : string)                (* [message.info] *)
| Warning (s : string)             (* [message.warning] *)
| Todo (s : string)                (* [message.todo] *)
| RawInput (prompt : string)       (* [raw_input(prompt)] *)
| Getpass (prompt : string)        (* [getpass(prompt)], not echoed *)
| CheckRose                        (* [auth.check_rose()] *)
| StartAgent                       (* [gpg.start_gpg_agent()] *)
| Preset (key passwd : string)     (* [gpg.preset_passphrase(key, passwd)] *)
| Verify                           (* [auth.check_or_update()] *)
| FsExists (p : string)
| FsGrep (pat p : string)
| FsRename (src dst : string)
| FsRead (p : string)
| FsOpenW (p : string)
| FsOpenA (p : string)
| FsWrite (p data : string)
| FsCopy2 (src dst : string).

(** Python exceptions that can travel through the scripts.  [LoopFuel]
    is not a Python exception: it marks a loop cut off by the model, and
    [mosrs_request_loop_total] shows that it never comes out. *)
Inductive Exn : Type :=
| SetupError (args : list string)
| AuthError (args : list string)
| GPGError (args : list string)
| IOError
| OSError
| EOFError
| KeyError
| SystemExit
| LoopFuel.

(** How a statement ends: it falls through with a value, the enclosing
    function executes [return], or an exception is raised. *)
Inductive Res (A : Type) : Type :=
| Normal (a : A)
| Returned
| Raised (e : Exn).
Arguments Normal {A} a.
Arguments Returned {A}.
Arguments Raised {A} e.

(** The mutable part: files (path to content), the lines waiting on
    standard input and on the terminal, the global [message.debugging],
    the output so far, and the I/O fault still to come, if any:
    [Some (n, k)] interrupts the file operation that comes after [n] more
    successful ones, when [k] bytes of it have reached the disk. *)
Record World : Type := mkWorld {
  w_fs : gmap string string;
  w_stdin : list string;
  w_tty : list string;
  w_fault : option (nat * nat);
  w_debugging : bool;
  w_out : list Event
}.

(** The collaborators that are not part of these two files, by their
    outcome in this run: the environment, [mosrs.host], [argparse], and
    the modules [auth] and [gpg] ([None]: the call succeeds; [Some args]:
    it raises its error with these arguments). *)
Record Env : Type := mkEnv {
  e_HOME : option string;
  e_on_accessdev : bool;
  e_host : string;
  e_parse_args : option bool;
  e_check_rose : option (list string);
  e_start_gpg_agent : option (list string);
  e_preset_passphrase : string -> string -> option (list string);
  e_check_credentials : option (list string)
}.

Definition M (A : Type) : Type := World -> Res A * World.

Definition ret {A} (a : A) : M A := fun w => (Normal a, w).
Definition raise {A} (e : Exn) : M A := fun w => (Raised e, w).
Definition return_ {A} : M A := fun w => (Returned, w).

Definition bind {A B} (m : M A) (k : A -> M B) : M B :=
  fun w =>
    match m w with
    | (Normal a, w') => k a w'
    | (Returned, w') => (Returned, w')
    | (Raised e, w') => (Raised e, w')
    end.

Declare Scope py_scope.
Delimit Scope py_scope with py.
Notation "x <- m ;; k" := (bind m (fun x => k))
  (at level 100, m at next level, k at level 200, right associativity) : py_scope.
Notation "m ;; k" := (bind m (fun _ => k))
  (at level 100, k at level 200, right associativity) : py_scope.
Local Open Scope py_scope.

(** [def f(): body]: a [return] in the body ends the call. *)
Definition def (body : M unit) : M unit :=
  fun w =>
    match body w with
    | (Returned, w') => (Normal tt, w')
    | r => r
    end.

(** [try: body / except ...: handler / else: orelse] *)
Definition try_except_else {A B} (body : M A) (handler : Exn -> option (M B))
    (orelse : A -> M B) : M B :=
  fun w =>
    match body w with
    | (Normal a, w') => orelse a w'
    | (Returned, w') => (Returned, w')
    | (Raised e, w') =>
        match handler e with
        | Some h => h w'
        | None => (Raised e, w')
        end
    end.

Definition try_except {A} (body : M A) (handler : Exn -> option (M A)) : M A :=
  try_except_else body handler ret.

(** [try: body / finally: final] *)
Definition try_finally {A} (body : M A) (final : M unit) : M A :=
  fun w =>
    match body w with
    | (r, w') =>
        match final w' with
        | (Normal _, w'') => (r, w'')
        | (Returned, w'') => (Returned, w'')
        | (Raised e, w'') => (Raised e, w'')
        end
    end.

Definition emit (ev : Event) : M unit :=
  fun w => (Normal tt,
            mkWorld (w_fs w) (w_stdin w) (w_tty w) (w_fault w) (w_debugging w)
                    (w_out w ++ [ev])).

Definition set_fs (fs : gmap string string) : M unit :=
  fun w => (Normal tt,
            mkWorld fs (w_stdin w) (w_tty w) (w_fault w) (w_debugging w) (w_out w)).

Definition get_fs : M (gmap string string) := fun w => (Normal (w_fs w), w).

Definition set_debugging (b : bool) : M unit :=
  fun w => (Normal tt,
            mkWorld (w_fs w) (w_stdin w) (w_tty w) (w_fault w) b (w_out w)).

(** [for x in xs: body(x)] *)
Fixpoint for_each {A} (xs : list A) (body : A -> M unit) : M unit :=
  match xs with
  | [] => ret tt
  | x :: xs' => body x ;; for_each xs' body
  end.

(** *** Console *)

Definition print_ (s : string) : M unit := emit (Print s).
Definition info (s : string) : M unit := emit (Info s).
Definition warning (s : string) : M unit := emit (Warning s).
Definition todo (s : string) : M unit := emit (Todo s).

(** [raw_input(prompt)]: the next line of standard input, [EOFError] when
    there is none. *)
Definition raw_input (prompt : string) : M string :=
  emit (RawInput prompt) ;;
  fun w =>
    match w_stdin w with
    | [] => (Raised EOFError, w)
    | l :: ls =>
        (Normal l, mkWorld (w_fs w) ls (w_tty w) (w_fault w) (w_debugging w) (w_out w))
    end.

(** [getpass(prompt)]: a line read from the terminal without echo. *)
Definition getpass (prompt : string) : M string :=
  emit (Getpass prompt) ;;
  fun w =>
    match w_tty w with
    | [] => (Raised EOFError, w)
    | l :: ls =>
        (Normal l, mkWorld (w_fs w) (w_stdin w) ls (w_fault w) (w_debugging w) (w_out w))
    end.

(** *** Files *)

(** Every file operation first asks whether the fault strikes now:
    [Some k] if so, with the number of bytes that still get through. *)
Definition tick : M (option nat) :=
  fun w =>
    match w_fault w with
    | Some (O, k) => (Normal (Some k), w)
    | Some (S n, k) =>
        (Normal None,
         mkWorld (w_fs w) (w_stdin w) (w_tty w) (Some (n, k)) (w_debugging w) (w_out w))
    | None => (Normal None, w)
    end.

(** [path.exists(p)] *)
Definition path_exists (p : string) : M bool :=
  emit (FsExists p) ;;
  fs <- get_fs ;;
  ret (match fs !! p with Some _ => true | None => false end).

(** [Popen(['grep', pat, p], stdout=PIPE)], [communicate()] and the
    [returncode]: 0 when a line matches, 1 when none does, 2 when the file
    cannot be read.  Both patterns used here are free of regular-expression
    operators and of newlines, so a line matches exactly when the file
    holds the pattern as a substring. *)
Definition grep_returncode (pat p : string) : M Z :=
  emit (FsGrep pat p) ;;
  fs <- get_fs ;;
  ret (match fs !! p with
       | Some c => if Py.contains pat c then 0%Z else 1%Z
       | None => 2%Z
       end).

(** [os.rename(src, dst)]: atomic; [dst] is replaced if it exists. *)
Definition rename (src dst : string) : M unit :=
  hit <- tick ;;
  match hit with
  | Some _ => raise OSError
  | None =>
      fs <- get_fs ;;
      match fs !! src with
      | Some c => set_fs (<[dst := c]> (delete src fs)) ;; emit (FsRename src dst)
      | None => raise OSError
      end
  end.

(** [open(p, 'r')] and [read()] *)
Definition read_file (p : string) : M string :=
  hit <- tick ;;
  match hit with
  | Some _ => raise IOError
  | None =>
      fs <- get_fs ;;
      match fs !! p with
      | Some c => emit (FsRead p) ;; ret c
      | None => raise IOError
      end
  end.

(** [open(p, 'w')]: the file is created or truncated. *)
Definition open_w (p : string) : M unit :=
  hit <- tick ;;
  match hit with
  | Some _ => raise IOError
  | None => fs <- get_fs ;; set_fs (<[p := EmptyString]> fs) ;; emit (FsOpenW p)
  end.

(** [open(p, 'a')]: the file is created if it does not exist. *)
Definition open_a (p : string) : M unit :=
  hit <- tick ;;
  match hit with
  | Some _ => raise IOError
  | None =>
      fs <- get_fs ;;
      match fs !! p with
      | Some _ => emit (FsOpenA p)
      | None => set_fs (<[p := EmptyString]> fs) ;; emit (FsOpenA p)
      end
  end.

Definition content (fs : gmap string string) (p : string) : string :=
  match fs !! p with Some c => c | None => EmptyString end.

(** [f.write(data)] up to the implicit [close()]: the data go to the end
    of the file; an interrupted write leaves the first [k] bytes of them. *)
Definition write (p data : string) : M unit :=
  hit <- tick ;;
  fs <- get_fs ;;
  match hit with
  | Some k => set_fs (<[p := content fs p +:+ Py.take k data]> fs) ;; raise IOError
  | None => set_fs (<[p := content fs p +:+ data]> fs) ;; emit (FsWrite p data)
  end.

(** [shutil.copystat]: the metadata are not modelled, its failure is. *)
Definition copystat : M unit :=
  hit <- tick ;;
  match hit with
  | Some _ => raise OSError
  | None => ret tt
  end.

(** [shutil.copy2(src, dst)] *)
Definition copy2 (src dst : string) : M unit :=
  c <- read_file src ;;
  open_w dst ;;
  write dst c ;;
  copystat ;;
  emit (FsCopy2 src dst).

(** ** [mosrs/access.py] *)

Module Access.

Definition realm : string := "<https://access-svn.nci.org.au:443> AccessCollab".
Definition nemo_realm : string := "<https://access-svn.nci.org.au:443> nemo".

Definition key : string := MD5.hexdigest realm.
Definition nemo_key : string := MD5.hexdigest nemo_realm.

Section WithEnv.
Variable e : Env.

(** [gpg.preset_passphrase(key, passwd)] *)
Definition preset_passphrase (k passwd : string) : M unit :=
  emit (Preset k passwd) ;;
  match e_preset_passphrase e k passwd with
  | None => ret tt
  | Some args => raise (GPGError args)
  end.

Definition main : M unit :=
  def (
    let realm := realm in
    let key := MD5.hexdigest realm in
    passwd <- getpass "Please enter your NCI password: " ;;
    preset_passphrase key passwd ;;
    let nemo_realm := nemo_realm in
    let nemo_key := MD5.hexdigest nemo_realm in
    preset_passphrase nemo_key passwd).

End WithEnv.
End Access.

(** ** [mosrs/setup.py] *)

Module Setup.

(** [gpg_startup]: the script inserted into the startup file, as the
    triple-quoted literal has it, before [dedent]. *)
Definition gpg_agent_script_literal : string :=
  Py.text
    [ EmptyString;
      "    # mosrs-setup gpg_agent_script: DO NOT EDIT BETWEEN HERE AND END";
      "    function export_gpg_environ {";
      "        export GPG_TTY=$(tty)";
      "        export GPG_AGENT_INFO=" +:+ Py.dq
        +:+ "$(gpgconf --list-dirs agent-socket):0:1" +:+ Py.dq;
      "    }";
      "    function start_gpg_agent {";
      "        mkdir -p $HOME/.gnupg";
      "        gpg-connect-agent /bye";
      "        export_gpg_environ";
      "    }";
      "    if in_interactive_shell; then";
      "        if in_login_shell; then";
      "            start_gpg_agent";
      "        fi";
      "    fi";
      "    # mosrs-setup gpg_agent_script: END";
      EmptyString;
      "    " ].

Definition gpg_agent_script : string := Py.dedent gpg_agent_script_literal.

Definition startup_name : string := ".bashrc".
Definition old_name : string := startup_name +:+ ".old".
Definition boilerplate : string := "if in_interactive_shell; then".
Definition grep_marker : string := "mosrs-setup gpg_agent_script".

Definition relogin_message (host : string) : string :=
  Py.dedent
    (Py.text
       [ EmptyString;
         "        GPG Agent has been added to your startup script. Please log out of "
           +:+ host;
         "        then back in again to make sure it has been activated.";
         "        " ]).

Definition credentials_message : string :=
  Py.dedent
    (Py.text
       [ EmptyString;
         "                Please check your credentials. If you have recently reset your password";
         "                it may take a bit of time for the server to recognise the new password.";
         "                " ]).

Definition account_request_message : string :=
  Py.dedent
    (Py.text
       [ EmptyString;
         "            Please send a request for a MOSRS account to your MOSRS Group Sponsor,";
         "            copying in the Lead Chief Investigator of your NCI project.";
         "            See https://my.nci.org.au for information on your project.";
         "            " ]).

Definition success_message : string :=
  Py.dedent
    (Py.text
       [ EmptyString;
         "            You are now able to use Rose and the MOSRS Subversion repositories.";
         "            To see a list of available experiments run:";
         EmptyString;
         "                rosie go";
         EmptyString;
         "            Your password will be cached for a maximum of 12 hours.";
         "            To store your password again run:";
         EmptyString;
         "                mosrs-auth";
         "            " ]).

Definition accessdev_message : string :=
  "This version of mosrs-setup is not intended to run on accessdev.".
Definition banner : string :=
  "This script will set up your account to use Rose and the MOSRS Subversion repositories"
    +:+ Py.nl.
Definition rerun_message : string :=
  "Once this has been done please run this setup script again.".
Definition support_message : string :=
  "You can ask for help with the ACCESS systems by emailing " +:+ Py.dq
    +:+ "help@nci.org.au" +:+ Py.dq +:+ ".".

Section WithEnv.
Variable e : Env.

(** *** Collaborators *)

Definition on_accessdev : M bool := ret (e_on_accessdev e).
Definition get_host : M string := ret (e_host e).

(** [environ['HOME']] *)
Definition environ_HOME : M string :=
  match e_HOME e with
  | Some h => ret h
  | None => raise KeyError
  end.

(** [parser.parse_args()]: the namespace with its [debugging] flag, or
    [SystemExit] (help, or a command line that does not parse). *)
Definition parse_args : M bool :=
  match e_parse_args e with
  | Some debugging => ret debugging
  | None => raise SystemExit
  end.

Definition auth_check_rose : M unit :=
  emit CheckRose ;;
  match e_check_rose e with
  | None => ret tt
  | Some args => raise (AuthError args)
  end.

Definition gpg_start_gpg_agent : M unit :=
  emit StartAgent ;;
  match e_start_gpg_agent e with
  | None => ret tt
  | Some args => raise (GPGError args)
  end.

(** Modelled from the spec: [auth.check_or_update], of the module
    [mosrs/auth.py] that is not among the sources.  The credential
    verifier of the spec makes one authenticated request with the
    credential that is cached at that moment and succeeds or fails with
    [AuthError]; it does not retry and asks for nothing.  As for the
    other collaborators, the call is recorded ([Verify]) and its outcome
    is the one of this run. *)
Definition auth_check_or_update : M unit :=
  emit Verify ;;
  match e_check_credentials e with
  | None => ret tt
  | Some args => raise (AuthError args)
  end.

(** *** The script *)

Definition prompt_or_default (prompt default : string) : M string :=
  response <- raw_input (prompt +:+ " [" +:+ default +:+ "]: ") ;;
  let response := Py.strip response in
  let response := if String.eqb response EmptyString then default else response in
  ret response.

Definition check_rose : M unit :=
  def (
    try_except auth_check_rose
      (fun exc => match exc with
                  | AuthError args => Some (raise (SetupError args))
                  | _ => None
                  end)).

Definition gpg_startup : M unit :=
  def (
    let gpg_agent_script := gpg_agent_script in
    home <- environ_HOME ;;
    let startup_name := startup_name in
    let startup_path := Py.path_join home startup_name in
    exists_ <- path_exists startup_path ;;
    (if negb exists_ then
       warning ("Startup script ~/" +:+ startup_name +:+ " does not exist.") ;;
       todo "Please contact the helpdesk." ;;
       raise (SetupError [])
     else
       (* Check if gpg_agent_script is already referenced *)
       grep_gpg_agent_script <- grep_returncode grep_marker startup_path ;;
       (if (grep_gpg_agent_script =? 0)%Z then return_ else ret tt) ;;
       (* Old filename and pathname used for rename or copy *)
       let old_name := startup_name +:+ ".old" in
       let old_path := Py.path_join home old_name in
       (* Look for NCI boilerplate in startup file *)
       let boilerplate := boilerplate in
       grep_boilerplate <- grep_returncode boilerplate startup_path ;;
       if (grep_boilerplate =? 0)%Z then
         (* Boilerplate has been found *)
         rename startup_path old_path ;;
         (* Insert gpg_agent_script *)
         old <- read_file old_path ;;
         let insert_here := Py.find boilerplate old in
         let new := Py.slice_to old insert_here +:+ gpg_agent_script
                      +:+ Py.slice_from old insert_here in
         open_w startup_path ;;
         write startup_path new
       else
         copy2 startup_path old_path ;;
         (* Append gpg_agent_script *)
         open_a startup_path ;;
         write startup_path gpg_agent_script) ;;
    host <- get_host ;;
    todo (relogin_message host) ;;
    raise (SetupError [])).

Definition answers : list string := ["yes"; "no"; "y"; "n"].

Definition recognised (mosrs_request : option string) : bool :=
  match mosrs_request with
  | Some r => Py.str_in r answers
  | None => false
  end.

(** [while mosrs_request not in ['yes', 'no', 'y', 'n']: ...]; every turn
    takes a line of standard input, so [fuel] turns beyond the lines that
    are waiting are never needed. *)
Fixpoint mosrs_request_while (fuel : nat) (mosrs_request : option string)
    : M (option string) :=
  if recognised mosrs_request then ret mosrs_request
  else
    match fuel with
    | O => raise LoopFuel
    | S fuel' =>
        mosrs_request <- prompt_or_default "Do you have a MOSRS account" "yes" ;;
        let mosrs_request := Py.lower mosrs_request in
        mosrs_request_while fuel' (Some mosrs_request)
    end.

Definition mosrs_request_loop : M (option string) :=
  fun w => mosrs_request_while (S (List.length (w_stdin w))) None w.

Definition request_startswith (p : string) (mosrs_request : option string) : bool :=
  match mosrs_request with
  | Some r => Py.startswith p r
  | None => false
  end.

Definition setup_mosrs_account : M unit :=
  def (
    try_except gpg_start_gpg_agent
      (fun exc => match exc with
                  | GPGError args =>
                      Some (warning "GPGError in setup_mosrs_account:" ;;
                            for_each args (fun arg => info arg) ;;
                            raise (GPGError args))
                  | _ => None
                  end) ;;
    (* Save account details and cache credentials *)
    mosrs_request <- mosrs_request_loop ;;
    if request_startswith "y" mosrs_request then
      try_except auth_check_or_update
        (fun exc => match exc with
                    | AuthError _ =>
                        Some (warning "Authentication check and update failed." ;;
                              todo credentials_message ;;
                              raise (SetupError []))
                    | _ => None
                    end)
    else
      todo account_request_message ;;
      raise (SetupError [])).

Definition main : M unit :=
  def (
    print_ EmptyString ;;
    accessdev <- on_accessdev ;;
    (if accessdev then warning accessdev_message ;; return_ else ret tt) ;;
    debugging <- parse_args ;;
    (if debugging then set_debugging true else ret tt) ;;
    print_ banner ;;
    try_finally
      (try_except_else
         (check_rose ;;
          try_except setup_mosrs_account
            (fun exc => match exc with
                        | GPGError _ => Some return_
                        | SetupError args => Some (raise (SetupError args))
                        | _ => None
                        end) ;;
          (* Insert or append a GPG agent script into the user's startup script *)
          gpg_startup)
         (fun exc => match exc with
                     | SetupError _ => Some (todo rerun_message)
                     | _ => None
                     end)
         (fun _ =>
            (* Account successfully created *)
            info success_message))
      (info support_message)).

End WithEnv.
End Setup.

(** ** Vocabulary of the statements *)

(** The two paths [gpg_startup] works on. *)
Definition startup_path (home : string) : string :=
  Py.path_join home Setup.startup_name.
Definition old_path (home : string) : string :=
  Py.path_join home (Setup.startup_name +:+ ".old").

(** The first sentinel comment of the managed block, without its [#]. *)
Definition sentinel_marker : string :=
  "mosrs-setup gpg_agent_script: DO NOT EDIT BETWEEN HERE AND END".

(** The prompt of the account question and what a line typed at it
    becomes: stripped, the default if empty, lower-cased. *)
Definition account_prompt : string := "Do you have a MOSRS account [yes]: ".

Definition answer_of (line : string) : string :=
  let r := Py.strip line in
  Py.lower (if String.eqb r EmptyString then "yes" else r).

Definition accepted (line : string) : bool :=
  Py.str_in (answer_of line) Setup.answers.

Definition is_support (ev : Event) : bool :=
  match ev with
  | Info s => String.eqb s Setup.support_message
  | _ => false
  end.

(** How many times the support line was printed. *)
Definition count_support (out : list Event) : nat :=
  List.length (List.filter is_support out).

Definition is_fs_event (ev : Event) : bool :=
  match ev with
  | FsExists _ | FsGrep _ _ | FsRename _ _ | FsRead _ | FsOpenW _ | FsOpenA _
  | FsWrite _ _ | FsCopy2 _ _ => true
  | _ => false
  end.

Definition is_credential_event (ev : Event) : bool :=
  match ev with
  | Getpass _ | Preset _ _ | Verify => true
  | _ => false
  end.

Definition is_verify (ev : Event) : bool :=
  match ev with Verify => true | _ => false end.





(** *** Assertions on worlds

    [hoare P m Q E]: from a world in [P], the computation [m] either falls
    through with a value [a] into a world in [Q a], or leaves by [return]
    or by an exception into a world in [E]. *)
Definition hoare {A} (P : World -> Prop) (m : M A) (Q : A -> World -> Prop)
    (E : World -> Prop) : Prop :=
  forall w, P w ->
    match m w with
    | (Normal a, w') => Q a w'
    | (Returned, w') => E w'
    | (Raised _, w') => E w'
    end.

(** The events that complete the backup of [sp] at [op]. *)
Definition is_backup_event (sp op : string) (ev : Event) : bool :=
  match ev with
  | FsRename s d | FsCopy2 s d => String.eqb s sp && String.eqb d op
  | _ => false
  end.

(** Since the output [out0], no backup has been completed. *)
Definition no_backup_yet (sp op : string) (out0 : list Event) (w : World) : Prop :=
  exists evs, w_out w = (out0 ++ evs)%list
              /\ forallb (fun ev => negb (is_backup_event sp op ev)) evs = true.

(** The startup file still holds its original content and no backup has
    been completed. *)
Definition intact (sp op orig : string) (out0 : list Event) (w : World) : Prop :=
  w_fs w !! sp = Some orig /\ no_backup_yet sp op out0 w.

(** The backup holds the original content. *)
Definition saved (op orig : string) (w : World) : Prop :=
  w_fs w !! op = Some orig.

Definition recoverable (sp op orig : string) (out0 : list Event) (w : World) : Prop :=
  intact sp op orig out0 w \/ saved op orig w.

(** No fault is pending and the two files hold [c1] and [c2]. *)
Definition files_are (sp op : string) (c1 c2 : option string) (w : World) : Prop :=
  w_fault w = None /\ w_fs w !! sp = c1 /\ w_fs w !! op = c2.

(** Since the output [out0], the support line has not been printed. *)
Definition silent (out0 : list Event) (w : World) : Prop :=
  exists evs, w_out w = (out0 ++ evs)%list /\ count_support evs = 0.

(** Since the output [out0], the support line has been printed once, as
    the last thing. *)
Definition closed_by_support (out0 : list Event) (w : World) : Prop :=
  exists pre, w_out w = (out0 ++ pre ++ [Info Setup.support_message])%list
              /\ count_support pre = 0.

(** [m] keeps the assertion [I], however it ends. *)
Definition keeps {A} (I : World -> Prop) (m : M A) : Prop :=
  hoare I m (fun _ => I) I.

(** *** A concrete run, for the witnesses and counterexamples *)

(** A host that is not accessdev, where every collaborator succeeds. *)
Definition example_env : Env :=
  mkEnv (Some "/home/user") false "gadi" (Some false) None None (fun _ _ => None) None.

(** The same on accessdev. *)
Definition accessdev_env : Env :=
  mkEnv (Some "/home/user") true "accessdev" (Some false) None None (fun _ _ => None) None.

(** The same, with an authentication check that fails. *)
Definition auth_error_env : Env :=
  mkEnv (Some "/home/user") false "gadi" (Some false) None None (fun _ _ => None)
    (Some ["svn: E170001: Authentication failed"]).

(** A startup file with the NCI boilerplate, one without, and one that
    only mentions the marker. *)
Definition bashrc_with_anchor : string :=
  Py.text ["PS1=x"; "if in_interactive_shell; then"; "    true"; "fi"; EmptyString].
Definition bashrc_plain : string := Py.text ["PS1=x"; EmptyString].
Definition bashrc_mention : string :=
  Py.text ["# see mosrs-setup gpg_agent_script"; EmptyString].

(** A startup file whose boilerplate line is indented. *)
Definition bashrc_indented_anchor : string :=
  Py.text ["PS1=x"; "  if in_interactive_shell; then"; "    true"; "  fi"; EmptyString].

Definition example_world (bashrc : string) (stdin tty : list string)
    (fault : option (nat * nat)) : World :=
  mkWorld {[ "/home/user/.bashrc" := bashrc ]} stdin tty fault false [].

(** ** Checks of the model on known values *)

Example dedent_ex :
  Py.dedent (Py.text [EmptyString; "    a"; "      b"; EmptyString; "    "])
  = Py.text [EmptyString; "a"; "  b"; EmptyString; EmptyString].
Proof. vm_compute. reflexivity. Qed.

Example strip_ex : Py.strip "  No " = "No" /\ Py.lower "No" = "no" /\ Py.find "b" "aab" = 2%Z
  /\ Py.find "c" "aab" = (-1)%Z /\ Py.path_join "/home/u" ".bashrc" = "/home/u/.bashrc"
  /\ Py.path_join "/" ".bashrc" = "/.bashrc" /\ Py.slice_to "abcd" (-1) = "abc".
Proof. vm_compute. repeat split. Qed.

Example md5_rfc1321 :
  MD5.hexdigest EmptyString = "d41d8cd98f00b204e9800998ecf8427e"
  /\ MD5.hexdigest "abc" = "900150983cd24fb0d6963f7d28e17f72"
  /\ MD5.hexdigest "message digest" = "f96b697d7cb7938d525a2f31aaf161d0"
  /\ MD5.hexdigest
       "aaaaaaaaaaaaaaaaaaaaaaaaaaaaaaaaaaaaaaaaaaaaaaaaaaaaaaaaaaaaaaaaaaaaaa"
     = "0f5c6c4e740bfcc08c3c26ccb2673d46".
Proof. vm_compute. repeat split. Qed.

(** ** Strings *)

Section StringFacts.

Lemma append_nil_l (s : string) : EmptyString +:+ s = s.
Proof. reflexivity. Qed.

Lemma append_cons (c : ascii) (s t : string) : String c s +:+ t = String c (s +:+ t).
Proof. reflexivity. Qed.

Ltac ssimpl := simpl; rewrite ?append_nil_l, ?append_cons; simpl.

Lemma append_nil_r (s : string) : s +:+ EmptyString = s.
Proof. induction s; ssimpl; congruence. Qed.

Lemma append_assoc (a b c : string) : (a +:+ b) +:+ c = a +:+ b +:+ c.
Proof. induction a; ssimpl; congruence. Qed.

Lemma take_drop (n : nat) (s : string) : Py.take n s +:+ Py.drop n s = s.
Proof.
  revert s; induction n as [|n IH]; intros [|c s]; ssimpl; try reflexivity.
  now rewrite IH.
Qed.

Lemma take_app_length (a b : string) : Py.take (String.length a) (a +:+ b) = a.
Proof. induction a; ssimpl; [now destruct b | congruence]. Qed.

Lemma drop_app_length (a b : string) : Py.drop (String.length a) (a +:+ b) = b.
Proof. induction a; ssimpl; auto. Qed.

Lemma startswith_app (p r : string) : Py.startswith p (p +:+ r) = true.
Proof. induction p; ssimpl; [reflexivity | now rewrite Ascii.eqb_refl]. Qed.

Lemma startswith_inv (p s : string) :
  Py.startswith p s = true -> s = p +:+ Py.drop (String.length p) s.
Proof.
  revert s; induction p as [|a p IH]; intros [|b s]; ssimpl; try easy.
  destruct (Ascii.eqb_spec a b) as [->|]; [|easy].
  intros H; f_equal; auto.
Qed.

Lemma find_opt_unfold (sub s : string) :
  Py.find_opt sub s =
    if Py.startswith sub s then Some 0
    else match s with
         | EmptyString => None
         | String _ s' => option_map S (Py.find_opt sub s')
         end.
Proof. destruct s; reflexivity. Qed.

(** [find] returns a position at which the pattern does occur. *)
Lemma find_opt_Some (sub s : string) (i : nat) :
  Py.find_opt sub s = Some i ->
  Py.startswith sub (Py.drop i s) = true /\ String.length (Py.take i s) = i.
Proof.
  revert i; induction s as [|c s IH]; intros i; rewrite find_opt_unfold.
  - destruct (Py.startswith sub EmptyString) eqn:E; [|easy].
    intros [= <-]; auto.
  - destruct (Py.startswith sub (String c s)) eqn:E.
    + intros [= <-]; auto.
    + destruct (Py.find_opt sub s) as [j|]; [|easy].
      intros [= <-]; simpl. destruct (IH j eq_refl); auto.
Qed.

(** ... and the lowest such position. *)
Lemma find_opt_first (sub s : string) (i j : nat) :
  Py.find_opt sub s = Some i -> j < i -> Py.startswith sub (Py.drop j s) = false.
Proof.
  revert i j; induction s as [|c s IH]; intros i j; rewrite find_opt_unfold.
  - destruct (Py.startswith sub EmptyString); [|easy]. intros [= <-]; lia.
  - destruct (Py.startswith sub (String c s)) eqn:E.
    + intros [= <-]; lia.
    + destruct (Py.find_opt sub s) as [k|] eqn:F; [|easy].
      intros [= <-] Hj. destruct j as [|j]; simpl; [exact E|].
      apply (IH k); [reflexivity | lia].
Qed.

Lemma find_opt_app (a sub b : string) :
  exists i, Py.find_opt sub (a +:+ sub +:+ b) = Some i.
Proof.
  induction a as [|c a [i IH]]; ssimpl.
  - exists 0. now rewrite find_opt_unfold, startswith_app.
  - destruct (Py.startswith sub (String c (a +:+ sub +:+ b))); eauto.
    rewrite IH; simpl; eauto.
Qed.

Lemma contains_app (a sub b : string) : Py.contains sub (a +:+ sub +:+ b) = true.
Proof. unfold Py.contains. now destruct (find_opt_app a sub b) as [i ->]. Qed.

Lemma contains_inv (sub s : string) :
  Py.contains sub s = true -> exists a b, s = a +:+ sub +:+ b.
Proof.
  unfold Py.contains. destruct (Py.find_opt sub s) as [i|] eqn:E; [|easy].
  intros _. apply find_opt_Some in E as [E _]. apply startswith_inv in E.
  exists (Py.take i s), (Py.drop (String.length sub) (Py.drop i s)).
  now rewrite <- E, take_drop.
Qed.

(** A string that holds [m] holds every substring of [m]. *)
Lemma contains_trans (p m s : string) :
  Py.contains p m = true -> Py.contains m s = true -> Py.contains p s = true.
Proof.
  intros Hp Hm.
  apply contains_inv in Hp as (a & b & ->). apply contains_inv in Hm as (c & d & ->).
  replace (c +:+ (a +:+ p +:+ b) +:+ d) with ((c +:+ a) +:+ p +:+ (b +:+ d)).
  - apply contains_app.
  - now rewrite !append_assoc.
Qed.

(** The slices around the position [find] returns. *)
Lemma slices_at_find (sub s : string) (i : nat) :
  Py.find_opt sub s = Some i ->
  Py.slice_to s (Py.find sub s) = Py.take i s
  /\ Py.slice_from s (Py.find sub s) = Py.drop i s.
Proof.
  intros E. unfold Py.slice_to, Py.slice_from, Py.slice_index, Py.find. rewrite E.
  destruct (Z.ltb_spec (Z.of_nat i) 0); [lia|]. now rewrite Nat2Z.id.
Qed.

Lemma startup_old_paths_differ (home : string) : startup_path home <> old_path home.
Proof.
  unfold startup_path, old_path, Py.path_join, Setup.startup_name; simpl.
  destruct (String.eqb home EmptyString || Py.endswith_slash home);
    intros H; apply String.app_inj in H; discriminate.
Qed.

End StringFacts.

(** ** Running the model inside a proof *)

(** Unfolds the monad and the primitive operations, and nothing else. *)
Ltac run :=
  lazy beta iota zeta delta
    [bind ret raise return_ def try_except_else try_except try_finally emit
     set_fs get_fs set_debugging print_ info warning todo raw_input getpass tick
     path_exists grep_returncode rename read_file open_w open_a write copystat
     copy2 content w_fs w_stdin w_tty w_fault w_debugging w_out negb Z.eqb
     Pos.eqb fst snd].

Ltac fs_lookup :=
  repeat first
    [ rewrite lookup_insert_eq
    | rewrite lookup_delete_eq
    | rewrite lookup_insert_ne by congruence
    | rewrite lookup_delete_ne by congruence ].

(** ** Rules of the program logic *)

Section ProgramLogic.

Lemma hoare_ret {A} (a : A) (Q : A -> World -> Prop) E : hoare (Q a) (ret a) Q E.
Proof. intros w H; exact H. Qed.

Lemma hoare_raise {A} (e : Exn) (Q : A -> World -> Prop) E : hoare E (raise e) Q E.
Proof. intros w H; exact H. Qed.

Lemma hoare_return {A} (Q : A -> World -> Prop) E : hoare E return_ Q E.
Proof. intros w H; exact H. Qed.

Lemma hoare_bind {A B} (m : M A) (k : A -> M B) P Q R E :
  hoare P m Q E -> (forall a, hoare (Q a) (k a) R E) -> hoare P (bind m k) R E.
Proof.
  intros Hm Hk w Hw. unfold bind. specialize (Hm w Hw).
  destruct (m w) as [[a| |e] w']; auto. now apply Hk.
Qed.

Lemma hoare_conseq {A} (m : M A) (P P' : World -> Prop) (Q Q' : A -> World -> Prop)
    (E E' : World -> Prop) :
  hoare P m Q E ->
  (forall w, P' w -> P w) -> (forall a w, Q a w -> Q' a w) -> (forall w, E w -> E' w) ->
  hoare P' m Q' E'.
Proof.
  intros H HP HQ HE w Hw. specialize (H w (HP w Hw)).
  destruct (m w) as [[a| |e] w']; auto.
Qed.

Lemma hoare_pre {A} (m : M A) (P P' : World -> Prop) Q E :
  hoare P m Q E -> (forall w, P' w -> P w) -> hoare P' m Q E.
Proof. intros H HP; apply (hoare_conseq m P P' Q Q E E); auto. Qed.

(** A fact that does not depend on the world can be taken out of the
    precondition. *)
Lemma hoare_pure {A} (m : M A) (F : Prop) (P : World -> Prop) Q E :
  (F -> hoare P m Q E) -> hoare (fun w => F /\ P w) m Q E.
Proof. intros H w [HF Hw]. now apply H. Qed.

Lemma hoare_def (m : M unit) P (Q : unit -> World -> Prop) E :
  hoare P m Q E -> (forall w, E w -> Q tt w) -> hoare P (def m) Q E.
Proof.
  intros H HE w Hw. unfold def. specialize (H w Hw).
  destruct (m w) as [[a| |e] w']; auto.
Qed.

Lemma hoare_try_except_else {A B} (body : M A) handler (orelse : A -> M B)
    P Q1 E1 Q E :
  hoare P body Q1 E1 ->
  (forall e h, handler e = Some h -> hoare E1 h Q E) ->
  (forall a, hoare (Q1 a) (orelse a) Q E) ->
  (forall w, E1 w -> E w) ->
  hoare P (try_except_else body handler orelse) Q E.
Proof.
  intros Hb Hh Ho HE w Hw. unfold try_except_else. specialize (Hb w Hw).
  destruct (body w) as [[a| |e] w']; auto.
  - now apply Ho.
  - destruct (handler e) as [h|] eqn:Eh; auto. now apply (Hh e h).
Qed.

Lemma hoare_try_except {A} (body : M A) handler P Q E1 E :
  hoare P body Q E1 ->
  (forall e h, handler e = Some h -> hoare E1 h Q E) ->
  (forall w, E1 w -> E w) ->
  hoare P (try_except body handler) Q E.
Proof.
  intros Hb Hh HE. apply (hoare_try_except_else _ _ _ P Q E1 Q E); auto.
  intros a; apply hoare_ret.
Qed.

Lemma hoare_try_finally {A} (body : M A) (final : M unit) P Q1 E1
    (Q : A -> World -> Prop) E :
  hoare P body Q1 E1 ->
  (forall a, hoare (Q1 a) final (fun _ => Q a) E) ->
  hoare E1 final (fun _ => E) E ->
  hoare P (try_finally body final) Q E.
Proof.
  intros Hb Hq He w Hw. unfold try_finally. specialize (Hb w Hw).
  destruct (body w) as [[a| |e] w'].
  - specialize (Hq a w' Hb). now destruct (final w') as [[[]| |e] w''].
  - specialize (He w' Hb). now destruct (final w') as [[[]| |e] w''].
  - specialize (He w' Hb). now destruct (final w') as [[[]| |e'] w''].
Qed.

Lemma hoare_for_each {A} (xs : list A) (body : A -> M unit) (I : World -> Prop) E :
  (forall x, In x xs -> hoare I (body x) (fun _ => I) E) ->
  hoare I (for_each xs body) (fun _ => I) E.
Proof.
  induction xs as [|x xs IH]; intros H; simpl.
  - apply (hoare_ret tt (fun _ => I)).
  - eapply hoare_bind; [apply H; now left|].
    intros u. apply IH. intros y Hy; apply H; now right.
Qed.

(** Whatever way the computation ends, it ends in a world of [J]. *)
Lemma hoare_final {A} (m : M A) (P J : World -> Prop) :
  hoare P m (fun _ => J) J -> forall w, P w -> J (snd (m w)).
Proof.
  intros H w Hw. specialize (H w Hw). now destruct (m w) as [[a| |e] w'].
Qed.

End ProgramLogic.

Lemma hoare_bind_ret {A B} (a : A) (k : A -> M B) P R E :
  hoare P (k a) R E -> hoare P (bind (ret a) k) R E.
Proof. intros H w Hw. exact (H w Hw). Qed.

(** ** [gpg_startup]: the backup protects the original content *)

Ltac enter :=
  intros [fs i t f d o];
  unfold recoverable, intact, saved, files_are; cbn [w_fs w_fault];
  intros H; repeat match goal with H : _ /\ _ |- _ => destruct H end.

Ltac use_hyps :=
  repeat match goal with
         | H : ?m !! ?p = _ |- context [?m !! ?p] => rewrite H
         end.

Section Safety.
Variables (e : Env) (sp op orig : string) (out0 : list Event).
Hypothesis Hne : sp <> op.

Lemma no_backup_emit fs i t f d o ev fs' i' t' f' d' :
  is_backup_event sp op ev = false ->
  no_backup_yet sp op out0 (mkWorld fs i t f d o) ->
  no_backup_yet sp op out0 (mkWorld fs' i' t' f' d' (o ++ [ev])).
Proof.
  intros Hev (evs & Ho & Hall). exists (evs ++ [ev])%list. cbn in *. subst o.
  split; [now rewrite app_assoc|].
  rewrite forallb_app, Hall. cbn. now rewrite Hev.
Qed.

Lemma no_backup_keep fs i t f d o fs' i' t' f' d' :
  no_backup_yet sp op out0 (mkWorld fs i t f d o) ->
  no_backup_yet sp op out0 (mkWorld fs' i' t' f' d' o).
Proof. intros (evs & Ho & Hall). now exists evs. Qed.

Ltac solve_nb :=
  first [ eassumption
        | eapply no_backup_emit; [reflexivity | solve_nb]
        | eapply no_backup_keep; eassumption ].

Ltac atom := first [ assumption | reflexivity | solve_nb ].

Ltac leave :=
  unfold recoverable, intact, saved; cbn [w_fs]; fs_lookup;
  solve [ repeat apply conj; atom
        | left; repeat apply conj; atom
        | right; repeat apply conj; atom ].

Lemma path_exists_intact :
  hoare (intact sp op orig out0) (path_exists sp)
    (fun b w => b = true /\ intact sp op orig out0 w) (recoverable sp op orig out0).
Proof. enter. run. use_hyps. leave. Qed.

Lemma grep_intact pat :
  hoare (intact sp op orig out0) (grep_returncode pat sp)
    (fun z w => z = (if Py.contains pat orig then 0 else 1)%Z /\ intact sp op orig out0 w)
    (recoverable sp op orig out0).
Proof. enter. run. use_hyps. leave. Qed.

(** The move creates the backup in one step. *)
Lemma rename_intact :
  hoare (intact sp op orig out0) (rename sp op)
    (fun _ => saved op orig) (recoverable sp op orig out0).
Proof. enter. destruct f as [[[|n] k]|]; run; use_hyps; leave. Qed.

Lemma read_saved :
  hoare (saved op orig) (read_file op)
    (fun c w => c = orig /\ saved op orig w) (recoverable sp op orig out0).
Proof. enter. destruct f as [[[|n] k]|]; run; use_hyps; leave. Qed.

Lemma open_w_saved :
  hoare (saved op orig) (open_w sp)
    (fun _ => saved op orig) (recoverable sp op orig out0).
Proof. enter. destruct f as [[[|n] k]|]; run; leave. Qed.

Lemma open_a_saved :
  hoare (saved op orig) (open_a sp)
    (fun _ => saved op orig) (recoverable sp op orig out0).
Proof. enter. destruct f as [[[|n] k]|]; run; try destruct (fs !! sp); run; leave. Qed.

(** Writing the startup file, completely or in part, leaves the backup. *)
Lemma write_saved data :
  hoare (saved op orig) (write sp data)
    (fun _ => saved op orig) (recoverable sp op orig out0).
Proof. enter. destruct f as [[[|n] k]|]; run; leave. Qed.

Lemma todo_saved msg :
  hoare (saved op orig) (todo msg)
    (fun _ => saved op orig) (recoverable sp op orig out0).
Proof. enter. run. leave. Qed.

Lemma read_intact :
  hoare (intact sp op orig out0) (read_file sp)
    (fun c w => c = orig /\ intact sp op orig out0 w) (recoverable sp op orig out0).
Proof. enter. destruct f as [[[|n] k]|]; run; use_hyps; leave. Qed.

Lemma open_w_intact :
  hoare (intact sp op orig out0) (open_w op)
    (fun _ w => w_fs w !! op = Some EmptyString /\ intact sp op orig out0 w)
    (recoverable sp op orig out0).
Proof. enter. destruct f as [[[|n] k]|]; run; leave. Qed.

(** Writing the backup, completely or in part, leaves the startup file. *)
Lemma write_backup :
  hoare (fun w => w_fs w !! op = Some EmptyString /\ intact sp op orig out0 w)
    (write op orig)
    (fun _ w => saved op orig w /\ intact sp op orig out0 w)
    (recoverable sp op orig out0).
Proof. enter. destruct f as [[[|n] k]|]; run; use_hyps; leave. Qed.

Lemma copystat_backup :
  hoare (fun w => saved op orig w /\ intact sp op orig out0 w) copystat
    (fun _ w => saved op orig w /\ intact sp op orig out0 w)
    (recoverable sp op orig out0).
Proof. enter. destruct f as [[[|n] k]|]; run; leave. Qed.

Lemma emit_saved ev :
  hoare (fun w => saved op orig w /\ intact sp op orig out0 w) (emit ev)
    (fun _ => saved op orig) (recoverable sp op orig out0).
Proof. enter. run. leave. Qed.

Lemma copy2_intact :
  hoare (intact sp op orig out0) (copy2 sp op)
    (fun _ => saved op orig) (recoverable sp op orig out0).
Proof.
  unfold copy2.
  eapply hoare_bind; [apply read_intact|]. intros c; apply hoare_pure; intros ->.
  eapply hoare_bind; [apply open_w_intact|]. intros u.
  eapply hoare_bind; [apply write_backup|]. intros u1.
  eapply hoare_bind; [apply copystat_backup|]. intros u2.
  apply emit_saved.
Qed.

Variable home : string.
Hypothesis HH : e_HOME e = Some home.
Hypothesis Hsp : startup_path home = sp.
Hypothesis Hop : old_path home = op.
Hypothesis Hmark : Py.contains Setup.grep_marker orig = false.

(** Whatever fault strikes and wherever, a real patch ends with the
    original content in the startup file or in the backup. *)
Lemma gpg_startup_recoverable :
  hoare (intact sp op orig out0) (Setup.gpg_startup e)
    (fun _ => recoverable sp op orig out0) (recoverable sp op orig out0).
Proof.
  unfold Setup.gpg_startup, Setup.environ_HOME. rewrite HH.
  apply hoare_def; [|auto]. apply hoare_bind_ret. cbv beta zeta.
  change (Py.path_join home Setup.startup_name) with (startup_path home).
  change (Py.path_join home (Setup.startup_name +:+ ".old")) with (old_path home).
  rewrite Hsp, Hop.
  eapply hoare_bind; [apply path_exists_intact|].
  intros b; apply hoare_pure; intros ->. cbn [negb].
  eapply hoare_bind with (Q := fun _ => saved op orig).
  - eapply hoare_bind; [apply grep_intact|].
    intros z; apply hoare_pure; intros ->. rewrite Hmark.
    eapply hoare_bind.
    { apply (hoare_ret tt (fun _ => intact sp op orig out0)). }
    intros u.
    eapply hoare_bind; [apply grep_intact|].
    intros z; apply hoare_pure; intros ->.
    destruct (Py.contains Setup.boilerplate orig); cbn [Z.eqb Pos.eqb].
    + eapply hoare_bind; [apply rename_intact|]. intros u1.
      eapply hoare_bind; [apply read_saved|]. intros c; apply hoare_pure; intros ->.
      eapply hoare_bind; [apply open_w_saved|]. intros u2.
      apply write_saved.
    + eapply hoare_bind; [apply copy2_intact|]. intros u1.
      eapply hoare_bind; [apply open_a_saved|]. intros u2.
      apply write_saved.
  - intros u. unfold Setup.get_host. apply hoare_bind_ret.
    eapply hoare_bind; [apply todo_saved|]. intros u1.
    eapply hoare_pre; [apply hoare_raise|]. intros w Hw; now right.
Qed.

End Safety.

(** ** [gpg_startup]: what a complete run writes *)

Section Patch.
Variables (e : Env) (sp op : string).
Hypothesis Hne : sp <> op.

Ltac done_files :=
  unfold files_are; cbn [w_fs w_fault]; fs_lookup; use_hyps;
  solve [ repeat apply conj; first [assumption | reflexivity] ].

Lemma path_exists_files c c2 E :
  hoare (files_are sp op (Some c) c2) (path_exists sp)
    (fun b w => b = true /\ files_are sp op (Some c) c2 w) E.
Proof. enter. subst. run. use_hyps. done_files. Qed.

Lemma grep_files pat c c2 E :
  hoare (files_are sp op (Some c) c2) (grep_returncode pat sp)
    (fun z w => z = (if Py.contains pat c then 0 else 1)%Z
                /\ files_are sp op (Some c) c2 w) E.
Proof. enter. subst. run. use_hyps. done_files. Qed.

Lemma rename_files c c2 E :
  hoare (files_are sp op (Some c) c2) (rename sp op)
    (fun _ => files_are sp op None (Some c)) E.
Proof. enter. subst. run. use_hyps. done_files. Qed.

Lemma read_old_files c1 c E :
  hoare (files_are sp op c1 (Some c)) (read_file op)
    (fun r w => r = c /\ files_are sp op c1 (Some c) w) E.
Proof. enter. subst. run. use_hyps. done_files. Qed.

Lemma read_startup_files c c2 E :
  hoare (files_are sp op (Some c) c2) (read_file sp)
    (fun r w => r = c /\ files_are sp op (Some c) c2 w) E.
Proof. enter. subst. run. use_hyps. done_files. Qed.

Lemma open_w_startup_files c1 c2 E :
  hoare (files_are sp op c1 c2) (open_w sp)
    (fun _ => files_are sp op (Some EmptyString) c2) E.
Proof. enter. subst. run. done_files. Qed.

Lemma open_w_old_files c1 c2 E :
  hoare (files_are sp op c1 c2) (open_w op)
    (fun _ => files_are sp op c1 (Some EmptyString)) E.
Proof. enter. subst. run. done_files. Qed.

Lemma open_a_files c c2 E :
  hoare (files_are sp op (Some c) c2) (open_a sp)
    (fun _ => files_are sp op (Some c) c2) E.
Proof. enter. subst. run. use_hyps. run. done_files. Qed.

Lemma write_startup_files c c2 data E :
  hoare (files_are sp op (Some c) c2) (write sp data)
    (fun _ => files_are sp op (Some (c +:+ data)) c2) E.
Proof. enter. subst. run. use_hyps. done_files. Qed.

Lemma write_fresh_files c2 data E :
  hoare (files_are sp op (Some EmptyString) c2) (write sp data)
    (fun _ => files_are sp op (Some data) c2) E.
Proof. exact (write_startup_files EmptyString c2 data E). Qed.

Lemma write_old_files c1 c data E :
  hoare (files_are sp op c1 (Some c)) (write op data)
    (fun _ => files_are sp op c1 (Some (c +:+ data))) E.
Proof. enter. subst. run. use_hyps. done_files. Qed.

Lemma copystat_files c1 c2 E :
  hoare (files_are sp op c1 c2) copystat (fun _ => files_are sp op c1 c2) E.
Proof. enter. subst. run. done_files. Qed.

Lemma emit_files ev c1 c2 E :
  hoare (files_are sp op c1 c2) (emit ev) (fun _ => files_are sp op c1 c2) E.
Proof. enter. subst. run. done_files. Qed.

Lemma copy2_files c c2 E :
  hoare (files_are sp op (Some c) c2) (copy2 sp op)
    (fun _ => files_are sp op (Some c) (Some c)) E.
Proof.
  unfold copy2.
  eapply hoare_bind; [apply read_startup_files|]. intros r; apply hoare_pure; intros ->.
  eapply hoare_bind; [apply open_w_old_files|]. intros u.
  eapply hoare_bind; [apply write_old_files|]. intros u1.
  eapply hoare_bind; [apply copystat_files|]. intros u2.
  apply emit_files.
Qed.

Variables (home orig : string).
Hypothesis HH : e_HOME e = Some home.
Hypothesis Hsp : startup_path home = sp.
Hypothesis Hop : old_path home = op.
Hypothesis Hmark : Py.contains Setup.grep_marker orig = false.

(** Without a fault, a real patch ends with the original content in the
    backup, and in the startup file the script inserted where [find] sees
    the boilerplate, or appended when [grep] does not see it. *)
Lemma gpg_startup_patches c2 :
  let new :=
    if Py.contains Setup.boilerplate orig then
      Py.slice_to orig (Py.find Setup.boilerplate orig) +:+ Setup.gpg_agent_script
        +:+ Py.slice_from orig (Py.find Setup.boilerplate orig)
    else orig +:+ Setup.gpg_agent_script in
  hoare (files_are sp op (Some orig) c2) (Setup.gpg_startup e)
    (fun _ => files_are sp op (Some new) (Some orig))
    (files_are sp op (Some new) (Some orig)).
Proof.
  intros new.
  unfold Setup.gpg_startup, Setup.environ_HOME. rewrite HH.
  apply hoare_def; [|auto]. apply hoare_bind_ret. cbv beta zeta.
  change (Py.path_join home Setup.startup_name) with (startup_path home).
  change (Py.path_join home (Setup.startup_name +:+ ".old")) with (old_path home).
  rewrite Hsp, Hop.
  eapply hoare_bind; [apply path_exists_files|].
  intros b; apply hoare_pure; intros ->. cbn [negb].
  eapply hoare_bind with (Q := fun _ => files_are sp op (Some new) (Some orig)).
  - eapply hoare_bind; [apply grep_files|].
    intros z; apply hoare_pure; intros ->. rewrite Hmark.
    eapply hoare_bind.
    { apply (hoare_ret tt (fun _ => files_are sp op (Some orig) c2)). }
    intros u.
    eapply hoare_bind; [apply grep_files|].
    intros z; apply hoare_pure; intros ->. subst new.
    destruct (Py.contains Setup.boilerplate orig); cbn [Z.eqb Pos.eqb].
    + eapply hoare_bind; [apply rename_files|]. intros u1.
      eapply hoare_bind; [apply read_old_files|]. intros c; apply hoare_pure; intros ->.
      eapply hoare_bind; [apply open_w_startup_files|]. intros u2.
      apply write_fresh_files.
    + eapply hoare_bind; [apply copy2_files|]. intros u1.
      eapply hoare_bind; [apply open_a_files|]. intros u2.
      apply write_startup_files.
  - intros u. unfold Setup.get_host. apply hoare_bind_ret.
    eapply hoare_bind; [apply emit_files|]. intros u1.
    apply hoare_raise.
Qed.

End Patch.

(** ** [gpg_startup]: a file that holds the marker is left alone *)

Lemma gpg_startup_marker_noop e fs stdin tty fault dbg out home c :
  e_HOME e = Some home ->
  fs !! startup_path home = Some c ->
  Py.contains Setup.grep_marker c = true ->
  Setup.gpg_startup e (mkWorld fs stdin tty fault dbg out)
  = (Normal tt,
     mkWorld fs stdin tty fault dbg
       (out ++ [FsExists (startup_path home);
                FsGrep Setup.grep_marker (startup_path home)])).
Proof.
  intros HH Hf Hc.
  unfold Setup.gpg_startup, Setup.environ_HOME. rewrite HH. run.
  change (Py.path_join home Setup.startup_name) with (startup_path home).
  rewrite Hf. run. rewrite Hf, Hc. run.
  now rewrite <- app_assoc.
Qed.

(** ** Facts about the script that is inserted *)

Lemma grep_marker_in_sentinel : Py.contains Setup.grep_marker sentinel_marker = true.
Proof. vm_compute. reflexivity. Qed.

Lemma sentinel_in_script : Py.contains sentinel_marker Setup.gpg_agent_script = true.
Proof. vm_compute. reflexivity. Qed.

Lemma script_ends_with_newline : exists body, Setup.gpg_agent_script = body +:+ Py.nl.
Proof.
  exists (Py.take (String.length Setup.gpg_agent_script - 1) Setup.gpg_agent_script).
  vm_compute. reflexivity.
Qed.

(** A file that was patched, by insertion or by appending, holds the
    sentinel: the next run leaves it alone. *)
Lemma patched_has_sentinel (pre post : string) :
  Py.contains sentinel_marker (pre +:+ Setup.gpg_agent_script +:+ post) = true.
Proof.
  apply (contains_trans _ Setup.gpg_agent_script);
    [apply sentinel_in_script | apply contains_app].
Qed.

(** ** The claims about [gpg_startup] *)

(** C1. A real patch (the startup file exists and does not hold the
    marker) never leaves the system without a copy of the original
    startup content, whatever file operation is interrupted and however
    far it got: afterwards the startup file or the backup [.bashrc.old]
    holds it; the startup file differs from the original only when the
    backup holds it; once the backup has been completed (by the rename or
    by [copy2]) a later failure leaves it in place; and a run without a
    fault ends with the backup in place. *)
Theorem gpg_startup_backup_safety (e : Env) (w : World) (home orig : string) :
  e_HOME e = Some home ->
  w_fs w !! startup_path home = Some orig ->
  Py.contains Setup.grep_marker orig = false ->
  (w_fs (snd (Setup.gpg_startup e w)) !! startup_path home = Some orig
   \/ w_fs (snd (Setup.gpg_startup e w)) !! old_path home = Some orig)
  /\ (w_fs (snd (Setup.gpg_startup e w)) !! startup_path home <> Some orig ->
      w_fs (snd (Setup.gpg_startup e w)) !! old_path home = Some orig)
  /\ (forall evs,
        w_out (snd (Setup.gpg_startup e w)) = (w_out w ++ evs)%list ->
        In (FsRename (startup_path home) (old_path home)) evs
        \/ In (FsCopy2 (startup_path home) (old_path home)) evs ->
        w_fs (snd (Setup.gpg_startup e w)) !! old_path home = Some orig)
  /\ (w_fault w = None ->
      w_fs (snd (Setup.gpg_startup e w)) !! old_path home = Some orig).
Proof.
  intros HH Hf Hmark.
  pose proof (startup_old_paths_differ home) as Hne.
  assert (Hrec : recoverable (startup_path home) (old_path home) orig (w_out w)
                   (snd (Setup.gpg_startup e w))).
  { apply (hoare_final _ (intact (startup_path home) (old_path home) orig (w_out w))).
    - now apply (gpg_startup_recoverable e _ _ orig (w_out w) Hne home).
    - split; [exact Hf|]. exists []. now rewrite app_nil_r. }
  repeat apply conj.
  - destruct Hrec as [[H _]|H]; auto.
  - intros Hd. destruct Hrec as [[H _]|H]; [contradiction | exact H].
  - intros evs Hout Hin. destruct Hrec as [[_ (evs' & Hout' & Hall)]|H]; [|exact H].
    rewrite Hout in Hout'. apply app_inv_head in Hout'. subst evs'.
    rewrite forallb_forall in Hall.
    destruct Hin as [Hin|Hin]; apply Hall in Hin; cbn in Hin;
      rewrite !String.eqb_refl in Hin; discriminate.
  - intros Hnf.
    pose proof (gpg_startup_patches e _ _ Hne home orig HH eq_refl eq_refl Hmark
                  (w_fs w !! old_path home)) as Hp.
    cbv zeta in Hp.
    pose proof (hoare_final _ _ _ Hp w (conj Hnf (conj Hf eq_refl))) as Hfin.
    unfold files_are in Hfin. destruct Hfin as (_ & _ & Hop). exact Hop.
Qed.

Lemma gpg_startup_backup_safety_witness :
  w_fs (snd (Setup.gpg_startup example_env
               (example_world bashrc_with_anchor [] [] (Some (3, 7)))))
    !! startup_path "/home/user" = Some bashrc_with_anchor
  \/ w_fs (snd (Setup.gpg_startup example_env
                  (example_world bashrc_with_anchor [] [] (Some (3, 7)))))
       !! old_path "/home/user" = Some bashrc_with_anchor.
Proof.
  apply (gpg_startup_backup_safety example_env
           (example_world bashrc_with_anchor [] [] (Some (3, 7)))
           "/home/user" bashrc_with_anchor); vm_compute; reflexivity.
Defined.

(** C4. Patching is idempotent: when the startup file holds the sentinel
    line of the managed block, [gpg_startup] returns normally without any
    action, and every file, the startup file included, is what it was. *)
Theorem gpg_startup_idempotent (e : Env) (w : World) (home c : string) :
  e_HOME e = Some home ->
  w_fs w !! startup_path home = Some c ->
  Py.contains sentinel_marker c = true ->
  fst (Setup.gpg_startup e w) = Normal tt
  /\ w_fs (snd (Setup.gpg_startup e w)) = w_fs w
  /\ w_fs (snd (Setup.gpg_startup e w)) !! startup_path home = Some c.
Proof.
  intros HH Hf Hs. destruct w as [fs i t f d o]; cbn [w_fs] in Hf.
  rewrite (gpg_startup_marker_noop e fs i t f d o home c HH Hf).
  - cbn [fst snd w_fs]. auto.
  - exact (contains_trans _ _ _ grep_marker_in_sentinel Hs).
Qed.

Lemma gpg_startup_idempotent_witness :
  fst (Setup.gpg_startup example_env
         (example_world (bashrc_plain +:+ Setup.gpg_agent_script) [] [] None))
  = Normal tt.
Proof.
  apply (gpg_startup_idempotent example_env
           (example_world (bashrc_plain +:+ Setup.gpg_agent_script) [] [] None)
           "/home/user" (bashrc_plain +:+ Setup.gpg_agent_script));
    vm_compute; reflexivity.
Defined.

(** C10. The check for a previous patch is a substring search: wherever
    the text [mosrs-setup gpg_agent_script] occurs in the startup file,
    [gpg_startup] returns normally after looking at the file, no file is
    changed or created (so no backup appears), and nothing is renamed,
    copied or written. *)
Theorem gpg_startup_marker_anywhere (e : Env) (w : World) (home c : string) :
  e_HOME e = Some home ->
  w_fs w !! startup_path home = Some c ->
  Py.contains Setup.grep_marker c = true ->
  fst (Setup.gpg_startup e w) = Normal tt
  /\ w_fs (snd (Setup.gpg_startup e w)) = w_fs w
  /\ w_fs (snd (Setup.gpg_startup e w)) !! startup_path home = Some c
  /\ w_fs (snd (Setup.gpg_startup e w)) !! old_path home = w_fs w !! old_path home
  /\ w_out (snd (Setup.gpg_startup e w))
     = (w_out w ++ [FsExists (startup_path home);
                    FsGrep Setup.grep_marker (startup_path home)])%list.
Proof.
  intros HH Hf Hs. destruct w as [fs i t f d o]; cbn [w_fs] in Hf.
  rewrite (gpg_startup_marker_noop e fs i t f d o home c HH Hf Hs).
  cbn [fst snd w_fs w_out]. auto.
Qed.

Lemma gpg_startup_marker_anywhere_witness :
  w_fs (snd (Setup.gpg_startup example_env (example_world bashrc_mention [] [] None)))
    !! old_path "/home/user" = None.
Proof.
  apply (gpg_startup_marker_anywhere example_env (example_world bashrc_mention [] [] None)
           "/home/user" bashrc_mention); vm_compute; reflexivity.
Defined.

(** C5 (amended). For a startup file without the marker and a run
    without a fault: if the text of the boilerplate occurs in the file,
    anywhere, also inside a line, the new content is the original cut at
    the first occurrence of that text with the script in between, so the
    script ends where the boilerplate text begins, and as the script
    ends with a newline that text opens a line below it; what stood
    before the text on its line stays above the script.  Only if the text
    occurs nowhere is the new content the original followed by the
    script. *)
Theorem gpg_startup_insert_or_append (e : Env) (w : World) (home orig : string) :
  e_HOME e = Some home ->
  w_fault w = None ->
  w_fs w !! startup_path home = Some orig ->
  Py.contains Setup.grep_marker orig = false ->
  (Py.contains Setup.boilerplate orig = true ->
   exists pre post,
     orig = pre +:+ post
     /\ Py.startswith Setup.boilerplate post = true
     /\ Py.find_opt Setup.boilerplate orig = Some (String.length pre)
     /\ w_fs (snd (Setup.gpg_startup e w)) !! startup_path home
        = Some (pre +:+ Setup.gpg_agent_script +:+ post))
  /\ (Py.contains Setup.boilerplate orig = false ->
      w_fs (snd (Setup.gpg_startup e w)) !! startup_path home
      = Some (orig +:+ Setup.gpg_agent_script))
  /\ (exists body, Setup.gpg_agent_script = body +:+ Py.nl).
Proof.
  intros HH Hnf Hf Hmark.
  pose proof (startup_old_paths_differ home) as Hne.
  pose proof (gpg_startup_patches e _ _ Hne home orig HH eq_refl eq_refl Hmark
                (w_fs w !! old_path home)) as Hp.
  cbv zeta in Hp.
  pose proof (hoare_final _ _ _ Hp w (conj Hnf (conj Hf eq_refl))) as Hfin.
  unfold files_are in Hfin. destruct Hfin as (_ & Hnew & _).
  repeat apply conj.
  - intros Hb. rewrite Hb in Hnew. unfold Py.contains in Hb.
    destruct (Py.find_opt Setup.boilerplate orig) as [i|] eqn:Efind; [|discriminate].
    destruct (slices_at_find _ _ _ Efind) as [Hto Hfrom].
    destruct (find_opt_Some _ _ _ Efind) as [Hstart Hlen].
    rewrite Hto, Hfrom in Hnew.
    exists (Py.take i orig), (Py.drop i orig).
    rewrite take_drop, Hlen. auto.
  - intros Hb. now rewrite Hb in Hnew.
  - apply script_ends_with_newline.
Qed.

Lemma gpg_startup_insert_or_append_witness :
  w_fs (snd (Setup.gpg_startup example_env (example_world bashrc_plain [] [] None)))
    !! startup_path "/home/user" = Some (bashrc_plain +:+ Setup.gpg_agent_script).
Proof.
  apply (gpg_startup_insert_or_append example_env (example_world bashrc_plain [] [] None)
           "/home/user" bashrc_plain); vm_compute; reflexivity.
Defined.

(** C5, as claimed, fails when the boilerplate line is indented: the
    script is not put before that line but into it, after the
    indentation; the line of the original is no longer in the file, and
    the content is not the one with the script before the line. *)
Lemma indented_anchor_line_is_cut_in_two :
  Py.contains "  if in_interactive_shell; then" bashrc_indented_anchor = true
  /\ w_fs (snd (Setup.gpg_startup example_env
                  (example_world bashrc_indented_anchor [] [] None)))
       !! startup_path "/home/user"
     = Some ("PS1=x" +:+ Py.nl +:+ "  " +:+ Setup.gpg_agent_script
               +:+ "if in_interactive_shell; then" +:+ Py.nl
               +:+ "    true" +:+ Py.nl +:+ "  fi" +:+ Py.nl)
  /\ w_fs (snd (Setup.gpg_startup example_env
                  (example_world bashrc_indented_anchor [] [] None)))
       !! startup_path "/home/user"
     <> Some ("PS1=x" +:+ Py.nl +:+ Setup.gpg_agent_script
                +:+ "  if in_interactive_shell; then" +:+ Py.nl
                +:+ "    true" +:+ Py.nl +:+ "  fi" +:+ Py.nl)
  /\ Py.contains "  if in_interactive_shell; then"
       ("PS1=x" +:+ Py.nl +:+ "  " +:+ Setup.gpg_agent_script
          +:+ "if in_interactive_shell; then" +:+ Py.nl
          +:+ "    true" +:+ Py.nl +:+ "  fi" +:+ Py.nl)
     = false.
Proof.
  repeat apply conj.
  - vm_compute. reflexivity.
  - vm_compute. reflexivity.
  - vm_compute. discriminate.
  - vm_compute. reflexivity.
Qed.

(** ** The account question *)

Section AccountQuestion.

Lemma prompt_or_default_line l rest fs t f d o :
  Setup.prompt_or_default "Do you have a MOSRS account" "yes"
    (mkWorld fs (l :: rest) t f d o)
  = (Normal (let r := Py.strip l in if String.eqb r EmptyString then "yes" else r),
     mkWorld fs rest t f d (o ++ [RawInput account_prompt])).
Proof. reflexivity. Qed.

Lemma prompt_or_default_eof fs t f d o :
  Setup.prompt_or_default "Do you have a MOSRS account" "yes" (mkWorld fs [] t f d o)
  = (Raised EOFError, mkWorld fs [] t f d (o ++ [RawInput account_prompt])).
Proof. reflexivity. Qed.

Lemma while_recognised fuel a w :
  Py.str_in a Setup.answers = true ->
  Setup.mosrs_request_while fuel (Some a) w = (Normal (Some a), w).
Proof.
  intros H. destruct fuel; cbn [Setup.mosrs_request_while Setup.recognised];
    rewrite H; reflexivity.
Qed.

(** One turn of the loop: a prompt, a line, and the loop again. *)
Lemma while_step fuel req l rest fs t f d o :
  Setup.recognised req = false ->
  Setup.mosrs_request_while (S fuel) req (mkWorld fs (l :: rest) t f d o)
  = Setup.mosrs_request_while fuel (Some (answer_of l))
      (mkWorld fs rest t f d (o ++ [RawInput account_prompt])).
Proof.
  intros H. cbn [Setup.mosrs_request_while]. rewrite H.
  unfold bind at 1. rewrite prompt_or_default_line. reflexivity.
Qed.

Lemma while_eof fuel req fs t f d o :
  Setup.recognised req = false ->
  Setup.mosrs_request_while (S fuel) req (mkWorld fs [] t f d o)
  = (Raised EOFError, mkWorld fs [] t f d (o ++ [RawInput account_prompt])).
Proof.
  intros H. cbn [Setup.mosrs_request_while]. rewrite H.
  unfold bind at 1. rewrite prompt_or_default_eof. reflexivity.
Qed.

Lemma while_run bad : forall fuel req x rest fs t f d o,
  Setup.recognised req = false ->
  Forall (fun l => accepted l = false) bad ->
  accepted x = true ->
  List.length bad < fuel ->
  Setup.mosrs_request_while fuel req (mkWorld fs (bad ++ x :: rest) t f d o)
  = (Normal (Some (answer_of x)),
     mkWorld fs rest t f d
       (o ++ repeat (RawInput account_prompt) (S (List.length bad)))).
Proof.
  induction bad as [|b bad IH]; intros fuel req x rest fs t f d o Hreq Hbad Hx Hfuel.
  - destruct fuel as [|fuel]; [cbn in Hfuel; lia|].
    cbn [app]. rewrite while_step by exact Hreq.
    now rewrite while_recognised.
  - destruct fuel as [|fuel]; [cbn in Hfuel; lia|].
    inversion Hbad as [|? ? Hb Hbad']; subst.
    cbn [app]. rewrite while_step by exact Hreq.
    rewrite (IH fuel); auto; [|cbn in Hfuel; lia].
    cbn [List.length repeat]. now rewrite <- app_assoc.
Qed.

(** The loop prompts once per line until a line is accepted. *)
Lemma mosrs_request_loop_run bad x rest fs t f d o :
  Forall (fun l => accepted l = false) bad ->
  accepted x = true ->
  Setup.mosrs_request_loop (mkWorld fs (bad ++ x :: rest) t f d o)
  = (Normal (Some (answer_of x)),
     mkWorld fs rest t f d
       (o ++ repeat (RawInput account_prompt) (S (List.length bad)))).
Proof.
  intros Hbad Hx. unfold Setup.mosrs_request_loop. cbn [w_stdin].
  apply while_run; auto. rewrite length_app. cbn. lia.
Qed.

(** The loop never runs out of turns: it ends with an answer, or with the
    [EOFError] of [raw_input] when standard input is exhausted. *)
Lemma mosrs_request_while_total stdin : forall fuel req fs t f d o,
  List.length stdin < fuel ->
  fst (Setup.mosrs_request_while fuel req (mkWorld fs stdin t f d o)) <> Raised LoopFuel.
Proof.
  induction stdin as [|l stdin IH]; intros fuel req fs t f d o Hfuel;
    (destruct fuel as [|fuel]; [cbn in Hfuel; lia|]);
    destruct (Setup.recognised req) eqn:Hreq.
  - cbn [Setup.mosrs_request_while]. now rewrite Hreq.
  - now rewrite while_eof.
  - cbn [Setup.mosrs_request_while]. now rewrite Hreq.
  - rewrite while_step by exact Hreq. apply IH. cbn in Hfuel. lia.
Qed.

Lemma mosrs_request_loop_total (w : World) :
  fst (Setup.mosrs_request_loop w) <> Raised LoopFuel.
Proof.
  destruct w as [fs i t f d o]. unfold Setup.mosrs_request_loop. cbn [w_stdin].
  apply mosrs_request_while_total. lia.
Qed.

(** Upper and lower case are not told apart. *)
Lemma lower_char_idem c : Py.lower_char (Py.lower_char c) = Py.lower_char c.
Proof. destruct c as [[] [] [] [] [] [] [] []]; reflexivity. Qed.

Lemma is_space_lower_char c : Py.is_space (Py.lower_char c) = Py.is_space c.
Proof. destruct c as [[] [] [] [] [] [] [] []]; reflexivity. Qed.

Lemma lower_idem s : Py.lower (Py.lower s) = Py.lower s.
Proof. induction s as [|c s IH]; cbn; [reflexivity|]. now rewrite lower_char_idem, IH. Qed.

Lemma lstrip_lower s : Py.lstrip (Py.lower s) = Py.lower (Py.lstrip s).
Proof.
  induction s as [|c s IH]; cbn; [reflexivity|].
  rewrite is_space_lower_char. now destruct (Py.is_space c).
Qed.

Lemma rstrip_lower s : Py.rstrip (Py.lower s) = Py.lower (Py.rstrip s).
Proof.
  induction s as [|c s IH]; cbn; [reflexivity|].
  rewrite IH, is_space_lower_char.
  destruct (Py.rstrip s); cbn; [now destruct (Py.is_space c) | reflexivity].
Qed.

Lemma lower_empty s : String.eqb (Py.lower s) EmptyString = String.eqb s EmptyString.
Proof. now destruct s. Qed.

Lemma answer_of_lower l : answer_of (Py.lower l) = answer_of l.
Proof.
  unfold answer_of, Py.strip. cbv zeta.
  rewrite lstrip_lower, rstrip_lower, lower_empty.
  destruct (String.eqb (Py.rstrip (Py.lstrip l)) EmptyString); [reflexivity|].
  apply lower_idem.
Qed.

Lemma answer_of_case a b : Py.lower a = Py.lower b -> answer_of a = answer_of b.
Proof. intros H. now rewrite <- (answer_of_lower a), <- (answer_of_lower b), H. Qed.

End AccountQuestion.

(** C9. The account question: after [bad] lines that are not recognised,
    each answered by a new prompt, the first recognised line [x] ends the
    loop with its answer; [Y], [yes], [n] and [No] are recognised as [y],
    [yes], [n] and [no]; the empty line is the default [yes] that the
    prompt displays; [maybe] is not recognised; and lines that differ only
    in case give the same answer. *)
Theorem account_question_answers (bad : list string) (x : string) (rest : list string)
    (fs : gmap string string) (tty : list string) (fault : option (nat * nat))
    (dbg : bool) (out : list Event) :
  Forall (fun l => accepted l = false) bad ->
  accepted x = true ->
  Setup.mosrs_request_loop (mkWorld fs (bad ++ x :: rest) tty fault dbg out)
  = (Normal (Some (answer_of x)),
     mkWorld fs rest tty fault dbg
       (out ++ repeat (RawInput account_prompt) (S (List.length bad))))
  /\ (answer_of "Y" = "y" /\ answer_of "yes" = "yes" /\ answer_of "n" = "n"
      /\ answer_of "No" = "no" /\ answer_of EmptyString = "yes")
  /\ (accepted "Y" = true /\ accepted "yes" = true /\ accepted "n" = true
      /\ accepted "No" = true /\ accepted EmptyString = true
      /\ accepted "maybe" = false)
  /\ (forall a b, Py.lower a = Py.lower b -> answer_of a = answer_of b)
  /\ account_prompt = "Do you have a MOSRS account" +:+ " [" +:+ "yes" +:+ "]: ".
Proof.
  intros Hbad Hx. split; [now apply mosrs_request_loop_run|].
  split; [vm_compute; repeat split|].
  split; [vm_compute; repeat split|].
  split; [exact answer_of_case | reflexivity].
Qed.

Lemma account_question_answers_witness :
  Setup.mosrs_request_loop (mkWorld ∅ (["maybe"] ++ "No" :: ["later"]) [] None false [])
  = (Normal (Some "no"),
     mkWorld ∅ ["later"] [] None false
       [RawInput account_prompt; RawInput account_prompt]).
Proof.
  apply (account_question_answers ["maybe"] "No" ["later"] ∅ [] None false []).
  - repeat constructor.
  - reflexivity.
Defined.

(** ** Computations that keep an assertion *)

Section Keeps.
Context (I : World -> Prop).

Lemma keeps_ret {A} (a : A) : keeps I (ret a).
Proof. intros w H; exact H. Qed.

Lemma keeps_raise {A} (e : Exn) : keeps I (raise e : M A).
Proof. intros w H; exact H. Qed.

Lemma keeps_return {A} : keeps I (return_ : M A).
Proof. intros w H; exact H. Qed.

Lemma keeps_bind {A B} (m : M A) (k : A -> M B) :
  keeps I m -> (forall a, keeps I (k a)) -> keeps I (bind m k).
Proof. intros Hm Hk. eapply hoare_bind; [exact Hm | exact Hk]. Qed.

Lemma keeps_def (m : M unit) : keeps I m -> keeps I (def m).
Proof. intros H. apply hoare_def; auto. Qed.

Lemma keeps_try_except_else {A B} (body : M A) handler (orelse : A -> M B) :
  keeps I body ->
  (forall e h, handler e = Some h -> keeps I h) ->
  (forall a, keeps I (orelse a)) ->
  keeps I (try_except_else body handler orelse).
Proof. intros Hb Hh Ho. eapply hoare_try_except_else; eauto. Qed.

Lemma keeps_try_except {A} (body : M A) handler :
  keeps I body ->
  (forall e h, handler e = Some h -> keeps I h) ->
  keeps I (try_except body handler).
Proof. intros Hb Hh. apply keeps_try_except_else; auto. intros a; apply keeps_ret. Qed.

Lemma keeps_for_each {A} (xs : list A) (body : A -> M unit) :
  (forall x, In x xs -> keeps I (body x)) -> keeps I (for_each xs body).
Proof. apply hoare_for_each. Qed.

End Keeps.

(** ** The support line

    Nothing the script does before its [finally] clause prints the
    support line; the clause prints it once. *)

Section Silent.
Variables (e : Env) (out0 : list Event).

Lemma count_support_app a b : count_support (a ++ b) = count_support a + count_support b.
Proof. unfold count_support. now rewrite List.filter_app, List.length_app. Qed.

Lemma quiet_snoc (o : list Event) ev :
  is_support ev = false ->
  (exists evs, o = (out0 ++ evs)%list /\ count_support evs = 0) ->
  exists evs, (o ++ [ev])%list = (out0 ++ evs)%list /\ count_support evs = 0.
Proof.
  intros Hev (evs & -> & Hc). exists (evs ++ [ev])%list.
  split; [now rewrite app_assoc|].
  rewrite count_support_app, Hc. unfold count_support. cbn. now rewrite Hev.
Qed.

Ltac solve_silent :=
  unfold silent in *; cbn [w_out] in *;
  repeat (apply quiet_snoc; [reflexivity|]); assumption.

Ltac prim := intros [fs i t f d o] H; run.

Lemma emit_silent ev : is_support ev = false -> keeps (silent out0) (emit ev).
Proof.
  intros Hev. prim. unfold silent in *; cbn [w_out] in *.
  now apply quiet_snoc.
Qed.

Lemma print_silent s : keeps (silent out0) (print_ s).
Proof. prim. solve_silent. Qed.

Lemma warning_silent s : keeps (silent out0) (warning s).
Proof. prim. solve_silent. Qed.

Lemma todo_silent s : keeps (silent out0) (todo s).
Proof. prim. solve_silent. Qed.

Lemma info_silent s : s <> Setup.support_message -> keeps (silent out0) (info s).
Proof.
  intros Hs. apply emit_silent. cbn. now apply String.eqb_neq.
Qed.

Lemma set_debugging_silent b : keeps (silent out0) (set_debugging b).
Proof. prim. solve_silent. Qed.

Lemma raw_input_silent p : keeps (silent out0) (raw_input p).
Proof. prim. destruct i; solve_silent. Qed.

Lemma getpass_silent p : keeps (silent out0) (getpass p).
Proof. prim. destruct t; solve_silent. Qed.

Lemma path_exists_silent p : keeps (silent out0) (path_exists p).
Proof. prim. solve_silent. Qed.

Lemma grep_silent pat p : keeps (silent out0) (grep_returncode pat p).
Proof. prim. solve_silent. Qed.

Lemma rename_silent a b : keeps (silent out0) (rename a b).
Proof. prim. destruct f as [[[|n] k]|]; run; try destruct (fs !! a); run; solve_silent. Qed.

Lemma read_file_silent p : keeps (silent out0) (read_file p).
Proof. prim. destruct f as [[[|n] k]|]; run; try destruct (fs !! p); run; solve_silent. Qed.

Lemma open_w_silent p : keeps (silent out0) (open_w p).
Proof. prim. destruct f as [[[|n] k]|]; run; solve_silent. Qed.

Lemma open_a_silent p : keeps (silent out0) (open_a p).
Proof. prim. destruct f as [[[|n] k]|]; run; try destruct (fs !! p); run; solve_silent. Qed.

Lemma write_silent p data : keeps (silent out0) (write p data).
Proof. prim. destruct f as [[[|n] k]|]; run; solve_silent. Qed.

Lemma copystat_silent : keeps (silent out0) copystat.
Proof. prim. destruct f as [[[|n] k]|]; run; solve_silent. Qed.

Ltac handler :=
  let exc := fresh "exc" in let h := fresh "h" in let Heq := fresh "Heq" in
  intros exc h Heq; destruct exc; try discriminate Heq; injection Heq as <-.

Ltac silence_step :=
  lazymatch goal with
  | |- keeps _ (ret _) => apply keeps_ret
  | |- keeps _ (raise _) => apply keeps_raise
  | |- keeps _ return_ => apply keeps_return
  | |- keeps _ (bind _ _) => apply keeps_bind; [|intros ?]
  | |- keeps _ (def _) => apply keeps_def
  | |- keeps _ (try_except _ _) => apply keeps_try_except; [|handler]
  | |- keeps _ (emit _) => apply emit_silent; reflexivity
  | |- keeps _ (print_ _) => apply print_silent
  | |- keeps _ (warning _) => apply warning_silent
  | |- keeps _ (todo _) => apply todo_silent
  | |- keeps _ (set_debugging _) => apply set_debugging_silent
  | |- keeps _ (raw_input _) => apply raw_input_silent
  | |- keeps _ (getpass _) => apply getpass_silent
  | |- keeps _ (path_exists _) => apply path_exists_silent
  | |- keeps _ (grep_returncode _ _) => apply grep_silent
  | |- keeps _ (rename _ _) => apply rename_silent
  | |- keeps _ (read_file _) => apply read_file_silent
  | |- keeps _ (open_w _) => apply open_w_silent
  | |- keeps _ (open_a _) => apply open_a_silent
  | |- keeps _ (write _ _) => apply write_silent
  | |- keeps _ copystat => apply copystat_silent
  | |- keeps _ (if ?b then _ else _) => destruct b
  | |- keeps _ (match ?x with _ => _ end) => destruct x
  | |- _ => solve [auto]
  end.

Ltac silence := repeat silence_step.

Lemma copy2_silent a b : keeps (silent out0) (copy2 a b).
Proof. unfold copy2. silence. Qed.

Lemma gpg_startup_silent : keeps (silent out0) (Setup.gpg_startup e).
Proof.
  unfold Setup.gpg_startup, Setup.environ_HOME, Setup.get_host. cbv zeta.
  pose proof copy2_silent. silence.
Qed.

Lemma access_main_silent : keeps (silent out0) (Access.main e).
Proof. unfold Access.main, Access.preset_passphrase. cbv zeta. silence. Qed.

Lemma check_or_update_silent : keeps (silent out0) (Setup.auth_check_or_update e).
Proof.
  unfold Setup.auth_check_or_update. silence.
Qed.

Lemma check_rose_silent : keeps (silent out0) (Setup.check_rose e).
Proof. unfold Setup.check_rose, Setup.auth_check_rose. silence. Qed.

Lemma prompt_or_default_silent p dflt : keeps (silent out0) (Setup.prompt_or_default p dflt).
Proof. unfold Setup.prompt_or_default. silence. Qed.

Lemma mosrs_request_while_silent fuel : forall req,
  keeps (silent out0) (Setup.mosrs_request_while fuel req).
Proof.
  induction fuel as [|fuel IH]; intros req; cbn [Setup.mosrs_request_while];
    pose proof prompt_or_default_silent; silence.
Qed.

Lemma mosrs_request_loop_silent : keeps (silent out0) Setup.mosrs_request_loop.
Proof. intros w Hw. apply (mosrs_request_while_silent _ None w Hw). Qed.


Hypothesis Hagent :
  forall args, e_start_gpg_agent e = Some args -> ~ In Setup.support_message args.

Lemma start_agent_silent :
  keeps (silent out0)
    (try_except (Setup.gpg_start_gpg_agent e)
       (fun exc => match exc with
                   | GPGError args =>
                       Some (warning "GPGError in setup_mosrs_account:" ;;
                             for_each args (fun arg => info arg) ;;
                             raise (GPGError args))
                   | _ => None
                   end)).
Proof.
  unfold Setup.gpg_start_gpg_agent.
  destruct (e_start_gpg_agent e) as [args|] eqn:Eargs.
  - intros [fs i t f d o] H. run.
    assert (Hfor : keeps (silent out0) (for_each args (fun arg => emit (Info arg)))).
    { apply keeps_for_each. intros x Hx. apply info_silent.
      intros ->. exact (Hagent args eq_refl Hx). }
    match goal with
    | |- context [for_each args _ ?w] =>
        assert (Hw : silent out0 w) by solve_silent;
        specialize (Hfor w Hw); destruct (for_each args _ w) as [[[]| |x] w']
    end; exact Hfor.
  - intros [fs i t f d o] H. run. solve_silent.
Qed.

Lemma setup_mosrs_account_silent : keeps (silent out0) (Setup.setup_mosrs_account e).
Proof.
  unfold Setup.setup_mosrs_account.
  pose proof start_agent_silent. pose proof mosrs_request_loop_silent.
  pose proof check_or_update_silent.
  apply keeps_def. apply keeps_bind; [assumption|]. intros u.
  apply keeps_bind; [assumption|]. intros req.
  silence.
Qed.

Lemma success_is_not_support : Setup.success_message <> Setup.support_message.
Proof. intros H. vm_compute in H. discriminate H. Qed.

(** Everything between the banner and the [finally] clause. *)
Lemma main_body_silent :
  keeps (silent out0)
    (try_except_else
       (Setup.check_rose e ;;
        try_except (Setup.setup_mosrs_account e)
          (fun exc => match exc with
                      | GPGError _ => Some return_
                      | SetupError args => Some (raise (SetupError args))
                      | _ => None
                      end) ;;
        Setup.gpg_startup e)
       (fun exc => match exc with
                   | SetupError _ => Some (todo Setup.rerun_message)
                   | _ => None
                   end)
       (fun _ => info Setup.success_message)).
Proof.
  pose proof check_rose_silent. pose proof setup_mosrs_account_silent.
  pose proof gpg_startup_silent.
  apply keeps_try_except_else.
  - silence.
  - handler. silence.
  - intros u. apply info_silent. exact success_is_not_support.
Qed.

Lemma support_closes :
  hoare (silent out0) (info Setup.support_message)
    (fun _ => closed_by_support out0) (closed_by_support out0).
Proof.
  intros [fs i t f d o] (evs & Ho & Hc). run. cbn in Ho. subst o.
  exists evs. cbn. split; [now rewrite <- app_assoc | exact Hc].
Qed.

Lemma print_quiet s E :
  hoare (silent out0) (print_ s) (fun _ => silent out0) E.
Proof. prim. solve_silent. Qed.

Lemma set_debugging_quiet b E :
  hoare (silent out0) (set_debugging b) (fun _ => silent out0) E.
Proof. prim. solve_silent. Qed.

Lemma main_closed_by_support dbg :
  e_on_accessdev e = false ->
  e_parse_args e = Some dbg ->
  hoare (silent out0) (Setup.main e)
    (fun _ => closed_by_support out0) (closed_by_support out0).
Proof.
  intros Hacc Hparse.
  unfold Setup.main, Setup.on_accessdev, Setup.parse_args. rewrite Hacc, Hparse.
  apply hoare_def; [|auto].
  eapply hoare_bind; [apply print_quiet|]. intros u.
  apply hoare_bind_ret. cbv beta iota.
  eapply hoare_bind; [apply (hoare_ret tt (fun _ => silent out0))|]. intros u1.
  apply hoare_bind_ret.
  eapply hoare_bind with (Q := fun _ => silent out0).
  { destruct dbg; [apply set_debugging_quiet | apply (hoare_ret tt (fun _ => silent out0))]. }
  intros u2.
  eapply hoare_bind; [apply print_quiet|]. intros u3.
  eapply hoare_try_finally.
  - apply main_body_silent.
  - intros a. apply support_closes.
  - apply support_closes.
Qed.

End Silent.

(** ** The runs of [main] that end before the account question *)

Lemma for_each_info (args : list string) : forall fs i t f d o,
  for_each args (fun arg => info arg) (mkWorld fs i t f d o)
  = (Normal tt, mkWorld fs i t f d (o ++ map Info args)).
Proof.
  induction args as [|a args IH]; intros fs i t f d o; cbn [for_each map].
  - run. now rewrite app_nil_r.
  - run. rewrite IH. now rewrite <- app_assoc.
Qed.

Lemma setup_mosrs_account_gpg_error (e : Env) (args : list string) fs i t f d o :
  e_start_gpg_agent e = Some args ->
  Setup.setup_mosrs_account e (mkWorld fs i t f d o)
  = (Raised (GPGError args),
     mkWorld fs i t f d
       (o ++ [StartAgent; Warning "GPGError in setup_mosrs_account:"] ++ map Info args)).
Proof.
  intros Hagent.
  unfold Setup.setup_mosrs_account, Setup.gpg_start_gpg_agent. rewrite Hagent. run.
  rewrite for_each_info. run. now rewrite <- !app_assoc.
Qed.

Lemma main_gpg_error_run (e : Env) (dbg : bool) (args : list string) fs i t f d o :
  e_on_accessdev e = false ->
  e_parse_args e = Some dbg ->
  e_check_rose e = None ->
  e_start_gpg_agent e = Some args ->
  Setup.main e (mkWorld fs i t f d o)
  = (Normal tt,
     mkWorld fs i t f (if dbg then true else d)
       (o ++ [Print EmptyString; Print Setup.banner; CheckRose; StartAgent;
              Warning "GPGError in setup_mosrs_account:"]
          ++ map Info args ++ [Info Setup.support_message])).
Proof.
  intros Hacc Hparse Hrose Hagent.
  unfold Setup.main, Setup.on_accessdev, Setup.parse_args, Setup.check_rose,
    Setup.auth_check_rose.
  rewrite Hacc, Hparse, Hrose. run.
  destruct dbg; run; rewrite (setup_mosrs_account_gpg_error e args) by assumption; run;
    now rewrite <- !app_assoc.
Qed.

Lemma main_rose_error_run (e : Env) (dbg : bool) (args : list string) fs i t f d o :
  e_on_accessdev e = false ->
  e_parse_args e = Some dbg ->
  e_check_rose e = Some args ->
  Setup.main e (mkWorld fs i t f d o)
  = (Normal tt,
     mkWorld fs i t f (if dbg then true else d)
       (o ++ [Print EmptyString; Print Setup.banner; CheckRose;
              Todo Setup.rerun_message; Info Setup.support_message])).
Proof.
  intros Hacc Hparse Hrose.
  unfold Setup.main, Setup.on_accessdev, Setup.parse_args, Setup.check_rose,
    Setup.auth_check_rose.
  rewrite Hacc, Hparse, Hrose. run.
  destruct dbg; run; now rewrite <- !app_assoc.
Qed.

(** ** The claim about the support line *)

(** C2 (amended). On every run of [main] that gets past the host check
    and the parsing of the command line, however it ends (success, a
    [SetupError] from any step, the early return after a [GPGError], an
    exception nothing catches, whatever fault strikes), the [finally]
    clause prints the support line once, as the last output.  Before it
    the script prints that text only where it echoes the arguments of a
    [GPGError] of [gpg.start_gpg_agent]: as many times as it is among
    them, so not at all unless the error carries it. *)
Theorem support_line_closes_the_run (e : Env) (w : World) (dbg : bool) :
  e_on_accessdev e = false ->
  e_parse_args e = Some dbg ->
  (exists pre,
     w_out (snd (Setup.main e w))
     = (w_out w ++ pre ++ [Info Setup.support_message])%list
     /\ count_support pre
        = match e_check_rose e, e_start_gpg_agent e with
          | None, Some args => count_support (map Info args)
          | _, _ => 0
          end)
  /\ count_support (w_out (snd (Setup.main e w)))
     = S (count_support (w_out w)
          + match e_check_rose e, e_start_gpg_agent e with
            | None, Some args => count_support (map Info args)
            | _, _ => 0
            end)
  /\ Setup.support_message
     = "You can ask for help with the ACCESS systems by emailing " +:+ Py.dq
         +:+ "help@nci.org.au" +:+ Py.dq +:+ ".".
Proof.
  intros Hacc Hparse.
  assert (Hpre : exists pre,
             w_out (snd (Setup.main e w))
             = (w_out w ++ pre ++ [Info Setup.support_message])%list
             /\ count_support pre
                = match e_check_rose e, e_start_gpg_agent e with
                  | None, Some args => count_support (map Info args)
                  | _, _ => 0
                  end).
  { destruct (e_check_rose e) as [rargs|] eqn:Hrose.
    - destruct w as [fs i t f d o].
      rewrite (main_rose_error_run e dbg rargs) by assumption. cbn [snd w_out].
      exists [Print EmptyString; Print Setup.banner; CheckRose; Todo Setup.rerun_message].
      split; reflexivity.
    - destruct (e_start_gpg_agent e) as [args|] eqn:Hagent.
      + destruct w as [fs i t f d o].
        rewrite (main_gpg_error_run e dbg args) by assumption. cbn [snd w_out].
        exists ([Print EmptyString; Print Setup.banner; CheckRose; StartAgent;
                 Warning "GPGError in setup_mosrs_account:"] ++ map Info args)%list.
        split; [now rewrite <- !app_assoc|].
        now rewrite count_support_app.
      + apply (hoare_final (Setup.main e) (silent (w_out w))).
        * apply (main_closed_by_support e (w_out w)) with (dbg := dbg); auto.
          intros args Hargs. rewrite Hagent in Hargs. discriminate Hargs.
        * exists []. now rewrite app_nil_r. }
  repeat apply conj; [exact Hpre | | reflexivity].
  destruct Hpre as (pre & -> & Hc).
  assert (Hone : count_support [Info Setup.support_message] = 1).
  { unfold count_support. cbn [List.filter is_support].
    now rewrite String.eqb_refl. }
  rewrite !count_support_app, Hc, Hone. lia.
Qed.

Lemma support_line_closes_the_run_witness :
  count_support
    (w_out (snd (Setup.main
                   (mkEnv (Some "/home/user") false "gadi" (Some false) None
                      (Some [Setup.support_message]) (fun _ _ => None) None)
                   (example_world bashrc_plain ["no"] [] None))))
  = 2.
Proof.
  apply (support_line_closes_the_run
           (mkEnv (Some "/home/user") false "gadi" (Some false) None
              (Some [Setup.support_message]) (fun _ _ => None) None)
           (example_world bashrc_plain ["no"] [] None) false);
    reflexivity.
Defined.

(** C2, as claimed, fails on the early exit on accessdev: the script
    returns before its [try] statement and the support line is not
    printed. *)
Lemma accessdev_exit_prints_no_support_line :
  Setup.main accessdev_env (example_world bashrc_plain [] [] None)
  = (Normal tt,
     mkWorld {[ "/home/user/.bashrc" := bashrc_plain ]} [] [] None false
       [Print EmptyString; Warning Setup.accessdev_message])
  /\ count_support
       (w_out (snd (Setup.main accessdev_env (example_world bashrc_plain [] [] None))))
     <> 1.
Proof. split; [reflexivity | vm_compute; discriminate]. Qed.

(** ** The paths through the orchestrator *)

Section Orchestrator.
Variable e : Env.
Hypothesis Hagent : e_start_gpg_agent e = None.

Variables (bad : list string) (x : string) (rest : list string).
Hypothesis Hbad : Forall (fun l => accepted l = false) bad.
Hypothesis Hx : accepted x = true.

(** The user has no account. *)
Lemma setup_mosrs_account_no fs t f d o :
  Py.startswith "y" (answer_of x) = false ->
  Setup.setup_mosrs_account e (mkWorld fs (bad ++ x :: rest) t f d o)
  = (Raised (SetupError []),
     mkWorld fs rest t f d
       (o ++ [StartAgent] ++ repeat (RawInput account_prompt) (S (List.length bad)) ++ [Todo Setup.account_request_message])).
Proof.
  intros Hn.
  unfold Setup.setup_mosrs_account, Setup.gpg_start_gpg_agent. rewrite Hagent. run.
  rewrite (mosrs_request_loop_run bad x rest) by assumption. run.
  unfold Setup.request_startswith. rewrite Hn. run.
  now rewrite <- !app_assoc.
Qed.

(** The user has an account: the one call of [auth.check_or_update]. *)
Lemma setup_mosrs_account_yes fs t f d o :
  Py.startswith "y" (answer_of x) = true ->
  Setup.setup_mosrs_account e (mkWorld fs (bad ++ x :: rest) t f d o)
  = (match e_check_credentials e with
     | None => Normal tt
     | Some _ => Raised (SetupError [])
     end,
     mkWorld fs rest t f d
       (o ++ [StartAgent] ++ repeat (RawInput account_prompt) (S (List.length bad))
          ++ [Verify]
          ++ match e_check_credentials e with
             | None => []
             | Some _ => [Warning "Authentication check and update failed.";
                          Todo Setup.credentials_message]
             end)).
Proof.
  intros Hy.
  unfold Setup.setup_mosrs_account, Setup.gpg_start_gpg_agent. rewrite Hagent. run.
  rewrite (mosrs_request_loop_run bad x rest) by assumption. run.
  unfold Setup.request_startswith. rewrite Hy.
  unfold Setup.auth_check_or_update. run.
  destruct (e_check_credentials e); run; now rewrite <- !app_assoc.
Qed.

Hypothesis Hacc : e_on_accessdev e = false.
Variable dbg : bool.
Hypothesis Hparse : e_parse_args e = Some dbg.
Hypothesis Hrose : e_check_rose e = None.

Lemma main_no fs t f d o :
  Py.startswith "y" (answer_of x) = false ->
  Setup.main e (mkWorld fs (bad ++ x :: rest) t f d o)
  = (Normal tt,
     mkWorld fs rest t f (if dbg then true else d)
       (o ++ [Print EmptyString; Print Setup.banner; CheckRose; StartAgent]
          ++ repeat (RawInput account_prompt) (S (List.length bad))
          ++ [Todo Setup.account_request_message; Todo Setup.rerun_message;
              Info Setup.support_message])).
Proof.
  intros Hn.
  unfold Setup.main, Setup.on_accessdev, Setup.parse_args, Setup.check_rose,
    Setup.auth_check_rose.
  rewrite Hacc, Hparse, Hrose. run.
  destruct dbg; run; rewrite setup_mosrs_account_no by assumption; run;
    now rewrite <- !app_assoc.
Qed.

Lemma main_auth_error fs t f d o args :
  Py.startswith "y" (answer_of x) = true ->
  e_check_credentials e = Some args ->
  Setup.main e (mkWorld fs (bad ++ x :: rest) t f d o)
  = (Normal tt,
     mkWorld fs rest t f (if dbg then true else d)
       (o ++ [Print EmptyString; Print Setup.banner; CheckRose; StartAgent]
          ++ repeat (RawInput account_prompt) (S (List.length bad))
          ++ [Verify;
              Warning "Authentication check and update failed.";
              Todo Setup.credentials_message; Todo Setup.rerun_message;
              Info Setup.support_message])).
Proof.
  intros Hy Hcred.
  unfold Setup.main, Setup.on_accessdev, Setup.parse_args, Setup.check_rose,
    Setup.auth_check_rose.
  rewrite Hacc, Hparse, Hrose. run.
  destruct dbg; run; rewrite setup_mosrs_account_yes by assumption; rewrite Hcred; run;
    now rewrite <- !app_assoc.
Qed.

End Orchestrator.

Lemma filter_prompts (f : Event -> bool) (n : nat) :
  f (RawInput account_prompt) = false ->
  List.filter f (repeat (RawInput account_prompt) n) = [].
Proof. intros H. induction n as [|n IH]; cbn; [reflexivity|]. now rewrite H. Qed.

(** ** The claims about the orchestrator *)

(** C3 (amended). When the answer to the account question is no, the
    run asks for nothing else: [setup_mosrs_account] prints the
    account-request instructions and raises [SetupError]; no password is
    read, nothing is preset or verified, no file is looked at; [main]
    catches the error, prints the generic guidance to run the setup
    again, then the support line, and returns normally.  The two
    messages are the ones of the script, word for word. *)
Theorem no_account_path (e : Env) (dbg : bool) (bad : list string) (x : string)
    (rest : list string) (fs : gmap string string) (tty : list string)
    (fault : option (nat * nat)) (d : bool) (out : list Event) :
  e_on_accessdev e = false ->
  e_parse_args e = Some dbg ->
  e_check_rose e = None ->
  e_start_gpg_agent e = None ->
  Forall (fun l => accepted l = false) bad ->
  accepted x = true ->
  Py.startswith "y" (answer_of x) = false ->
  fst (Setup.setup_mosrs_account e (mkWorld fs (bad ++ x :: rest) tty fault d out))
  = Raised (SetupError [])
  /\ Setup.main e (mkWorld fs (bad ++ x :: rest) tty fault d out)
     = (Normal tt,
        mkWorld fs rest tty fault (if dbg then true else d)
          (out ++ [Print EmptyString; Print Setup.banner; CheckRose; StartAgent]
             ++ repeat (RawInput account_prompt) (S (List.length bad))
             ++ [Todo Setup.account_request_message; Todo Setup.rerun_message;
                 Info Setup.support_message]))
  /\ List.filter (fun ev => is_credential_event ev || is_fs_event ev)
       ([Print EmptyString; Print Setup.banner; CheckRose; StartAgent]
          ++ repeat (RawInput account_prompt) (S (List.length bad))
          ++ [Todo Setup.account_request_message; Todo Setup.rerun_message;
              Info Setup.support_message])
     = []
  /\ Setup.account_request_message
     = Py.text
         [EmptyString;
          "Please send a request for a MOSRS account to your MOSRS Group Sponsor,";
          "copying in the Lead Chief Investigator of your NCI project.";
          "See https://my.nci.org.au for information on your project.";
          EmptyString]
  /\ Setup.rerun_message = "Once this has been done please run this setup script again.".
Proof.
  intros Hacc Hparse Hrose Hagent Hbad Hx Hn. repeat apply conj.
  - now rewrite (setup_mosrs_account_no e Hagent bad x rest Hbad Hx).
  - now apply main_no.
  - rewrite !List.filter_app, filter_prompts by reflexivity. reflexivity.
  - vm_compute. reflexivity.
  - reflexivity.
Qed.

Lemma no_account_path_witness :
  Setup.main example_env (example_world bashrc_plain (["maybe"] ++ "No" :: []) ["pw"] None)
  = (Normal tt,
     mkWorld {[ "/home/user/.bashrc" := bashrc_plain ]} [] ["pw"] None false
       ([] ++ [Print EmptyString; Print Setup.banner; CheckRose; StartAgent]
          ++ repeat (RawInput account_prompt) 2
          ++ [Todo Setup.account_request_message; Todo Setup.rerun_message;
              Info Setup.support_message])).
Proof.
  apply (no_account_path example_env false ["maybe"] "No" []
           {[ "/home/user/.bashrc" := bashrc_plain ]} ["pw"] None false []);
    try reflexivity.
  repeat constructor.
Defined.

(** C3, as claimed, fails: on the answer no the generic guidance to run
    the setup again is printed, after the account-request instructions. *)
Lemma no_account_prints_rerun_guidance :
  w_out (snd (Setup.main example_env (example_world bashrc_plain ["no"] ["pw"] None)))
  = [Print EmptyString; Print Setup.banner; CheckRose; StartAgent;
     RawInput account_prompt; Todo Setup.account_request_message;
     Todo Setup.rerun_message; Info Setup.support_message]
  /\ In (Todo Setup.rerun_message)
       (w_out (snd (Setup.main example_env
                      (example_world bashrc_plain ["no"] ["pw"] None)))).
Proof.
  assert (H : w_out (snd (Setup.main example_env
                            (example_world bashrc_plain ["no"] ["pw"] None)))
              = [Print EmptyString; Print Setup.banner; CheckRose; StartAgent;
                 RawInput account_prompt; Todo Setup.account_request_message;
                 Todo Setup.rerun_message; Info Setup.support_message]).
  { vm_compute. reflexivity. }
  split; [exact H|]. rewrite H. cbn. tauto.
Qed.

(** C6. When the answer is yes and [auth.check_or_update] fails with
    [AuthError], [setup_mosrs_account] prints a warning and the guidance
    to check the credentials and raises [SetupError]; [main] adds the
    guidance to run the script again and the support line and returns.
    [auth.check_or_update] was called once and is not called again; the
    startup file was neither looked at nor changed: [gpg_startup] is not
    reached, no file operation is in the trace and the file system is
    what it was. *)
Theorem auth_error_path (e : Env) (dbg : bool) (bad : list string) (x : string)
    (rest : list string) (fs : gmap string string) (tty : list string)
    (fault : option (nat * nat)) (d : bool) (out : list Event) (args : list string) :
  e_on_accessdev e = false ->
  e_parse_args e = Some dbg ->
  e_check_rose e = None ->
  e_start_gpg_agent e = None ->
  Forall (fun l => accepted l = false) bad ->
  accepted x = true ->
  Py.startswith "y" (answer_of x) = true ->
  e_check_credentials e = Some args ->
  fst (Setup.setup_mosrs_account e (mkWorld fs (bad ++ x :: rest) tty fault d out))
  = Raised (SetupError [])
  /\ Setup.main e (mkWorld fs (bad ++ x :: rest) tty fault d out)
     = (Normal tt,
        mkWorld fs rest tty fault (if dbg then true else d)
          (out ++ [Print EmptyString; Print Setup.banner; CheckRose; StartAgent]
             ++ repeat (RawInput account_prompt) (S (List.length bad))
             ++ [Verify;
                 Warning "Authentication check and update failed.";
                 Todo Setup.credentials_message; Todo Setup.rerun_message;
                 Info Setup.support_message]))
  /\ List.filter is_fs_event
       ([Print EmptyString; Print Setup.banner; CheckRose; StartAgent]
          ++ repeat (RawInput account_prompt) (S (List.length bad))
          ++ [Verify;
              Warning "Authentication check and update failed.";
              Todo Setup.credentials_message; Todo Setup.rerun_message;
              Info Setup.support_message])
     = []
  /\ List.filter is_verify
       ([Print EmptyString; Print Setup.banner; CheckRose; StartAgent]
          ++ repeat (RawInput account_prompt) (S (List.length bad))
          ++ [Verify;
              Warning "Authentication check and update failed.";
              Todo Setup.credentials_message; Todo Setup.rerun_message;
              Info Setup.support_message])
     = [Verify]
  /\ Setup.credentials_message
     = Py.text
         [EmptyString;
          "Please check your credentials. If you have recently reset your password";
          "it may take a bit of time for the server to recognise the new password.";
          EmptyString]
  /\ Setup.rerun_message = "Once this has been done please run this setup script again.".
Proof.
  intros Hacc Hparse Hrose Hagent Hbad Hx Hy Hcred. repeat apply conj.
  - rewrite (setup_mosrs_account_yes e Hagent bad x rest Hbad Hx) by assumption.
    now rewrite Hcred.
  - now apply (main_auth_error e Hagent bad x rest Hbad Hx Hacc dbg Hparse Hrose
                 fs tty fault d out args).
  - rewrite !List.filter_app, filter_prompts by reflexivity. reflexivity.
  - rewrite !List.filter_app, filter_prompts by reflexivity. reflexivity.
  - vm_compute. reflexivity.
  - reflexivity.
Qed.

Lemma auth_error_path_witness :
  fst (Setup.setup_mosrs_account auth_error_env
         (mkWorld {[ "/home/user/.bashrc" := bashrc_plain ]} ([] ++ "yes" :: [])
            ["pw"] None false []))
  = Raised (SetupError []).
Proof.
  apply (auth_error_path auth_error_env false [] "yes" []
           {[ "/home/user/.bashrc" := bashrc_plain ]} ["pw"] None false []
           ["svn: E170001: Authentication failed"]);
    try reflexivity.
  constructor.
Defined.






(** ** The keys of the cached passwords *)




(** ** Further properties of the two scripts *)


Lemma recreate_after_rename (fs : gmap string string) (sp op x y c : string) :
  sp <> op ->
  <[sp := x]> (<[sp := y]> (<[op := c]> (delete sp fs))) = <[sp := x]> (<[op := c]> fs).
Proof.
  intros Hne. apply map_eq; intros p.
  destruct (decide (p = sp)) as [->|Hp]; [now fs_lookup|].
  destruct (decide (p = op)) as [->|Hq]; now fs_lookup.
Qed.

Lemma rewrite_backup (fs : gmap string string) (op x y : string) :
  <[op := x]> (<[op := y]> fs) = <[op := x]> fs.
Proof.
  apply map_eq; intros p. destruct (decide (p = op)) as [->|Hp]; now fs_lookup.
Qed.

(** ** [gpg_startup]: the runs without a fault, step by step *)

Section PatchRuns.
Variables (e : Env) (home : string).
Hypothesis HH : e_HOME e = Some home.

Lemma gpg_startup_missing_run fs i t f d o :
  fs !! startup_path home = None ->
  Setup.gpg_startup e (mkWorld fs i t f d o)
  = (Raised (SetupError []),
     mkWorld fs i t f d
       (o ++ [FsExists (startup_path home);
              Warning "Startup script ~/.bashrc does not exist.";
              Todo "Please contact the helpdesk."])).
Proof.
  intros Hf.
  unfold Setup.gpg_startup, Setup.environ_HOME. rewrite HH. run.
  change (Py.path_join home Setup.startup_name) with (startup_path home).
  rewrite Hf. run.
  now rewrite <- !app_assoc.
Qed.

Lemma gpg_startup_insert_run fs i t d o orig :
  fs !! startup_path home = Some orig ->
  Py.contains Setup.grep_marker orig = false ->
  Py.contains Setup.boilerplate orig = true ->
  Setup.gpg_startup e (mkWorld fs i t None d o)
  = (Raised (SetupError []),
     mkWorld
       (<[startup_path home :=
            Py.slice_to orig (Py.find Setup.boilerplate orig) +:+ Setup.gpg_agent_script
              +:+ Py.slice_from orig (Py.find Setup.boilerplate orig)]>
          (<[old_path home := orig]> fs))
       i t None d
       (o ++ [FsExists (startup_path home);
              FsGrep Setup.grep_marker (startup_path home);
              FsGrep Setup.boilerplate (startup_path home);
              FsRename (startup_path home) (old_path home);
              FsRead (old_path home);
              FsOpenW (startup_path home);
              FsWrite (startup_path home)
                (Py.slice_to orig (Py.find Setup.boilerplate orig)
                   +:+ Setup.gpg_agent_script
                   +:+ Py.slice_from orig (Py.find Setup.boilerplate orig));
              Todo (Setup.relogin_message (e_host e))])).
Proof.
  intros Hf Hm Hb.
  pose proof (startup_old_paths_differ home) as Hne.
  unfold Setup.gpg_startup, Setup.environ_HOME, Setup.get_host. rewrite HH. run.
  change (Py.path_join home Setup.startup_name) with (startup_path home).
  change (Py.path_join home (Setup.startup_name +:+ ".old")) with (old_path home).
  rewrite Hf. run. rewrite Hf, Hm. run. rewrite Hf, Hb. run.
  rewrite Hf. run. fs_lookup. run.
  rewrite append_nil_l, recreate_after_rename by exact Hne.
  now rewrite <- !app_assoc.
Qed.

Lemma gpg_startup_append_run fs i t d o orig :
  fs !! startup_path home = Some orig ->
  Py.contains Setup.grep_marker orig = false ->
  Py.contains Setup.boilerplate orig = false ->
  Setup.gpg_startup e (mkWorld fs i t None d o)
  = (Raised (SetupError []),
     mkWorld
       (<[startup_path home := orig +:+ Setup.gpg_agent_script]>
          (<[old_path home := orig]> fs))
       i t None d
       (o ++ [FsExists (startup_path home);
              FsGrep Setup.grep_marker (startup_path home);
              FsGrep Setup.boilerplate (startup_path home);
              FsRead (startup_path home);
              FsOpenW (old_path home);
              FsWrite (old_path home) orig;
              FsCopy2 (startup_path home) (old_path home);
              FsOpenA (startup_path home);
              FsWrite (startup_path home) Setup.gpg_agent_script;
              Todo (Setup.relogin_message (e_host e))])).
Proof.
  intros Hf Hm Hb.
  pose proof (startup_old_paths_differ home) as Hne.
  unfold Setup.gpg_startup, Setup.environ_HOME, Setup.get_host. rewrite HH. run.
  change (Py.path_join home Setup.startup_name) with (startup_path home).
  change (Py.path_join home (Setup.startup_name +:+ ".old")) with (old_path home).
  rewrite Hf. run. rewrite Hf, Hm. run. rewrite Hf, Hb. run.
  rewrite Hf. run. fs_lookup. run. fs_lookup. rewrite Hf. run. fs_lookup. rewrite Hf.
  rewrite append_nil_l, rewrite_backup.
  now rewrite <- !app_assoc.
Qed.
End PatchRuns.

(** X1. Without a startup file [gpg_startup] gives up at once: it warns,
    refers the user to the helpdesk and raises [SetupError]; no file is
    created or changed, whatever fault may be pending, and nothing but the
    output differs afterwards. *)
Theorem gpg_startup_without_startup_file (e : Env) (w : World) (home : string) :
  e_HOME e = Some home ->
  w_fs w !! startup_path home = None ->
  Setup.gpg_startup e w
  = (Raised (SetupError []),
     mkWorld (w_fs w) (w_stdin w) (w_tty w) (w_fault w) (w_debugging w)
       (w_out w ++ [FsExists (startup_path home);
                    Warning "Startup script ~/.bashrc does not exist.";
                    Todo "Please contact the helpdesk."])).
Proof.
  intros HH Hf. destruct w as [fs i t f d o]. cbn [w_fs] in Hf.
  now apply gpg_startup_missing_run.
Qed.

Lemma gpg_startup_without_startup_file_witness :
  Setup.gpg_startup example_env (mkWorld ∅ [] [] (Some (0, 0)) false [])
  = (Raised (SetupError []),
     mkWorld ∅ [] [] (Some (0, 0)) false
       [FsExists "/home/user/.bashrc";
        Warning "Startup script ~/.bashrc does not exist.";
        Todo "Please contact the helpdesk."]).
Proof.
  apply (gpg_startup_without_startup_file example_env
           (mkWorld ∅ [] [] (Some (0, 0)) false []) "/home/user");
    reflexivity.
Defined.

(** X2. A patch that goes through never returns normally: [gpg_startup]
    raises [SetupError] after asking the user to log out and in again.
    By then it has looked at the startup file three times and made the
    backup before it wrote the startup file (by [rename] when the
    boilerplate is there, by [copy2] otherwise); the backup replaces
    whatever [.bashrc.old] held, and no other file has changed. *)
Theorem gpg_startup_complete_patch (e : Env) (w : World) (home orig : string) :
  e_HOME e = Some home ->
  w_fault w = None ->
  w_fs w !! startup_path home = Some orig ->
  Py.contains Setup.grep_marker orig = false ->
  fst (Setup.gpg_startup e w) = Raised (SetupError [])
  /\ w_fs (snd (Setup.gpg_startup e w))
     = <[startup_path home :=
           if Py.contains Setup.boilerplate orig then
             Py.slice_to orig (Py.find Setup.boilerplate orig) +:+ Setup.gpg_agent_script
               +:+ Py.slice_from orig (Py.find Setup.boilerplate orig)
           else orig +:+ Setup.gpg_agent_script]>
         (<[old_path home := orig]> (w_fs w))
  /\ w_out (snd (Setup.gpg_startup e w))
     = (w_out w
          ++ [FsExists (startup_path home);
              FsGrep Setup.grep_marker (startup_path home);
              FsGrep Setup.boilerplate (startup_path home)]
          ++ (if Py.contains Setup.boilerplate orig then
                [FsRename (startup_path home) (old_path home);
                 FsRead (old_path home);
                 FsOpenW (startup_path home);
                 FsWrite (startup_path home)
                   (Py.slice_to orig (Py.find Setup.boilerplate orig)
                      +:+ Setup.gpg_agent_script
                      +:+ Py.slice_from orig (Py.find Setup.boilerplate orig))]
              else
                [FsRead (startup_path home);
                 FsOpenW (old_path home);
                 FsWrite (old_path home) orig;
                 FsCopy2 (startup_path home) (old_path home);
                 FsOpenA (startup_path home);
                 FsWrite (startup_path home) Setup.gpg_agent_script])
          ++ [Todo (Setup.relogin_message (e_host e))])%list.
Proof.
  intros HH Hnf Hf Hm. destruct w as [fs i t f d o]. cbn [w_fs w_fault w_out] in *.
  subst f. destruct (Py.contains Setup.boilerplate orig) eqn:Hb.
  - rewrite (gpg_startup_insert_run e home HH fs i t d o orig Hf Hm Hb).
    cbn [fst snd w_fs w_out]. repeat apply conj; reflexivity.
  - rewrite (gpg_startup_append_run e home HH fs i t d o orig Hf Hm Hb).
    cbn [fst snd w_fs w_out]. repeat apply conj; reflexivity.
Qed.

Lemma gpg_startup_complete_patch_witness :
  fst (Setup.gpg_startup example_env (example_world bashrc_with_anchor [] [] None))
  = Raised (SetupError []).
Proof.
  apply (gpg_startup_complete_patch example_env
           (example_world bashrc_with_anchor [] [] None) "/home/user" bashrc_with_anchor);
    vm_compute; reflexivity.
Defined.

(** X3. After a patch that went through, a second call of [gpg_startup]
    finds the marker: it returns normally and changes nothing, so the
    script is never inserted twice and the backup keeps the content from
    before the first patch. *)
Theorem gpg_startup_second_run (e : Env) (w : World) (home orig : string) :
  e_HOME e = Some home ->
  w_fault w = None ->
  w_fs w !! startup_path home = Some orig ->
  Py.contains Setup.grep_marker orig = false ->
  fst (Setup.gpg_startup e (snd (Setup.gpg_startup e w))) = Normal tt
  /\ w_fs (snd (Setup.gpg_startup e (snd (Setup.gpg_startup e w))))
     = w_fs (snd (Setup.gpg_startup e w))
  /\ w_fs (snd (Setup.gpg_startup e (snd (Setup.gpg_startup e w)))) !! old_path home
     = Some orig.
Proof.
  intros HH Hnf Hf Hm. destruct w as [fs i t f d o]. cbn [w_fs w_fault] in *. subst f.
  pose proof (startup_old_paths_differ home) as Hne.
  assert (Hrun : exists new o',
             Setup.gpg_startup e (mkWorld fs i t None d o)
             = (Raised (SetupError []),
                mkWorld (<[startup_path home := new]> (<[old_path home := orig]> fs))
                  i t None d o')
             /\ Py.contains Setup.grep_marker new = true).
  { destruct (Py.contains Setup.boilerplate orig) eqn:Hb.
    - rewrite (gpg_startup_insert_run e home HH fs i t d o orig Hf Hm Hb).
      eexists _, _. split; [reflexivity|].
      apply (contains_trans _ sentinel_marker);
        [apply grep_marker_in_sentinel | apply patched_has_sentinel].
    - rewrite (gpg_startup_append_run e home HH fs i t d o orig Hf Hm Hb).
      eexists _, _. split; [reflexivity|].
      apply (contains_trans _ sentinel_marker); [apply grep_marker_in_sentinel|].
      rewrite <- (append_nil_r Setup.gpg_agent_script). apply patched_has_sentinel. }
  destruct Hrun as (new & o' & -> & Hnew). cbn [snd].
  rewrite (gpg_startup_marker_noop e _ i t None d o' home new HH) by (now fs_lookup).
  cbn [fst snd w_fs]. repeat apply conj; try reflexivity. now fs_lookup.
Qed.

Lemma gpg_startup_second_run_witness :
  fst (Setup.gpg_startup example_env
         (snd (Setup.gpg_startup example_env (example_world bashrc_plain [] [] None))))
  = Normal tt.
Proof.
  apply (gpg_startup_second_run example_env (example_world bashrc_plain [] [] None)
           "/home/user" bashrc_plain);
    vm_compute; reflexivity.
Defined.


Lemma keeps_bind_ret {A B} (I : World -> Prop) (a : A) (k : A -> M B) :
  keeps I (k a) -> keeps I (bind (ret a) k).
Proof. intros H w Hw. exact (H w Hw). Qed.

(** ** [gpg_startup]: the files it leaves alone *)

Section Frame.
Variables (p : string) (c : option string).

Ltac frame_prim :=
  intros [fs i t f d o] H; cbn [w_fs] in H; run;
  try (destruct f as [[[|n] k]|]; run);
  repeat match goal with
         | |- context [match ?m !! ?q with _ => _ end] => destruct (m !! q); run
         end;
  cbn [w_fs]; fs_lookup; exact H.

Lemma emit_frame ev : keeps (fun w => w_fs w !! p = c) (emit ev).
Proof. frame_prim. Qed.

Lemma path_exists_frame a : keeps (fun w => w_fs w !! p = c) (path_exists a).
Proof. frame_prim. Qed.

Lemma grep_frame pat a : keeps (fun w => w_fs w !! p = c) (grep_returncode pat a).
Proof. frame_prim. Qed.

Lemma rename_frame a b : p <> a -> p <> b -> keeps (fun w => w_fs w !! p = c) (rename a b).
Proof. intros Ha Hb. frame_prim. Qed.

Lemma read_file_frame a : keeps (fun w => w_fs w !! p = c) (read_file a).
Proof. frame_prim. Qed.

Lemma open_w_frame a : p <> a -> keeps (fun w => w_fs w !! p = c) (open_w a).
Proof. intros Ha. frame_prim. Qed.

Lemma open_a_frame a : p <> a -> keeps (fun w => w_fs w !! p = c) (open_a a).
Proof. intros Ha. frame_prim. Qed.

Lemma write_frame a data : p <> a -> keeps (fun w => w_fs w !! p = c) (write a data).
Proof. intros Ha. frame_prim. Qed.

Lemma copystat_frame : keeps (fun w => w_fs w !! p = c) copystat.
Proof. frame_prim. Qed.

Ltac frame_step :=
  lazymatch goal with
  | |- keeps _ (ret _) => apply keeps_ret
  | |- keeps _ (raise _) => apply keeps_raise
  | |- keeps _ return_ => apply keeps_return
  | |- keeps _ (bind _ _) => apply keeps_bind; [|intros ?]
  | |- keeps _ (def _) => apply keeps_def
  | |- keeps _ (emit _) => apply emit_frame
  | |- keeps _ (warning _) => apply emit_frame
  | |- keeps _ (todo _) => apply emit_frame
  | |- keeps _ (path_exists _) => apply path_exists_frame
  | |- keeps _ (grep_returncode _ _) => apply grep_frame
  | |- keeps _ (rename _ _) => apply rename_frame; assumption
  | |- keeps _ (read_file _) => apply read_file_frame
  | |- keeps _ (open_w _) => apply open_w_frame; assumption
  | |- keeps _ (open_a _) => apply open_a_frame; assumption
  | |- keeps _ (write _ _) => apply write_frame; assumption
  | |- keeps _ copystat => apply copystat_frame
  | |- keeps _ (if ?b then _ else _) => destruct b
  | |- keeps _ (match ?x with _ => _ end) => destruct x
  | |- _ => solve [auto]
  end.

Lemma copy2_frame a b : p <> b -> keeps (fun w => w_fs w !! p = c) (copy2 a b).
Proof. intros Hb. unfold copy2. repeat frame_step. Qed.

Lemma gpg_startup_frame (e : Env) :
  (forall home, e_HOME e = Some home -> p <> startup_path home /\ p <> old_path home) ->
  keeps (fun w => w_fs w !! p = c) (Setup.gpg_startup e).
Proof.
  intros Hp.
  unfold Setup.gpg_startup, Setup.environ_HOME, Setup.get_host. cbv zeta.
  destruct (e_HOME e) as [home|]; [|intros w Hw; exact Hw].
  destruct (Hp home eq_refl) as [Hs Ho]. unfold startup_path, old_path in Hs, Ho.
  pose proof (copy2_frame (Py.path_join home Setup.startup_name)
                (Py.path_join home (Setup.startup_name +:+ ".old")) Ho).
  apply keeps_def, keeps_bind_ret. cbv beta.
  repeat frame_step.
Qed.

End Frame.

(** X4. [gpg_startup] works on two paths only: whatever the startup
    file holds, whether a fault strikes and wherever, every other file is
    afterwards what it was before. *)
Theorem gpg_startup_touches_two_files (e : Env) (w : World) (home p : string) :
  e_HOME e = Some home ->
  p <> startup_path home ->
  p <> old_path home ->
  w_fs (snd (Setup.gpg_startup e w)) !! p = w_fs w !! p.
Proof.
  intros HH Hs Ho.
  apply (hoare_final (Setup.gpg_startup e) (fun w' => w_fs w' !! p = w_fs w !! p)
           (fun w' => w_fs w' !! p = w_fs w !! p)); [|reflexivity].
  apply gpg_startup_frame. intros home' HH'. rewrite HH in HH'.
  injection HH' as <-. now split.
Qed.

Lemma gpg_startup_touches_two_files_witness :
  w_fs (snd (Setup.gpg_startup example_env
               (mkWorld {[ "/home/user/.bashrc" := bashrc_with_anchor;
                           "/home/user/.profile" := "umask 022" ]}
                  [] [] (Some (3, 5)) false [])))
    !! "/home/user/.profile"
  = w_fs (mkWorld {[ "/home/user/.bashrc" := bashrc_with_anchor;
                     "/home/user/.profile" := "umask 022" ]}
            [] [] (Some (3, 5)) false [])
      !! "/home/user/.profile".
Proof.
  apply (gpg_startup_touches_two_files example_env _ "/home/user" "/home/user/.profile");
    [reflexivity | discriminate | discriminate].
Defined.




Lemma hoare_exit {A} (m : M A) (P : World -> Prop) (Q : A -> World -> Prop)
    (E E' : World -> Prop) :
  hoare P m Q E -> (forall w, E w -> E' w) -> hoare P m Q E'.
Proof. intros H HE. apply (hoare_conseq m P P Q Q E E'); auto. Qed.

Lemma take_all (s : string) : Py.take (String.length s) s = s.
Proof. induction s as [|a s IH]; cbn; [reflexivity | now rewrite IH]. Qed.

(** ** [gpg_startup]: appending never shortens the startup file *)

Section AppendOnly.
Variables (e : Env) (sp op orig : string).
Hypothesis Hne : sp <> op.

Ltac enter_here := intros [fs i t f d o] H; cbn [w_fs] in H; run.

Lemma whole_is_grown (w : World) :
  w_fs w !! sp = Some orig ->
  exists k, w_fs w !! sp = Some (orig +:+ Py.take k Setup.gpg_agent_script).
Proof. intros H. exists 0. cbn. now rewrite append_nil_r. Qed.

Lemma path_exists_whole E :
  hoare (fun w => w_fs w !! sp = Some orig) (path_exists sp)
    (fun b w => b = true /\ w_fs w !! sp = Some orig) E.
Proof. enter_here. rewrite H. cbn [w_fs]. auto. Qed.

Lemma grep_whole pat E :
  hoare (fun w => w_fs w !! sp = Some orig) (grep_returncode pat sp)
    (fun z w => z = (if Py.contains pat orig then 0 else 1)%Z
                /\ w_fs w !! sp = Some orig) E.
Proof. enter_here. rewrite H. cbn [w_fs]. auto. Qed.

Lemma open_a_whole :
  keeps (fun w => w_fs w !! sp = Some orig) (open_a sp).
Proof. enter_here. destruct f as [[[|n] k]|]; run; rewrite ?H; run; first [exact H | reflexivity]. Qed.

Lemma write_grows :
  hoare (fun w => w_fs w !! sp = Some orig) (write sp Setup.gpg_agent_script)
    (fun _ w => exists k, w_fs w !! sp = Some (orig +:+ Py.take k Setup.gpg_agent_script))
    (fun w => exists k, w_fs w !! sp = Some (orig +:+ Py.take k Setup.gpg_agent_script)).
Proof.
  enter_here. destruct f as [[[|n] k]|]; run; rewrite H; cbn [w_fs]; fs_lookup.
  - now exists k.
  - exists (String.length Setup.gpg_agent_script). now rewrite take_all.
  - exists (String.length Setup.gpg_agent_script). now rewrite take_all.
Qed.

Lemma emit_grown ev :
  keeps (fun w => exists k, w_fs w !! sp = Some (orig +:+ Py.take k Setup.gpg_agent_script))
    (emit ev).
Proof. enter_here. exact H. Qed.

Variable home : string.
Hypothesis HH : e_HOME e = Some home.
Hypothesis Hsp : startup_path home = sp.
Hypothesis Hop : old_path home = op.
Hypothesis Hmark : Py.contains Setup.grep_marker orig = false.
Hypothesis Hboiler : Py.contains Setup.boilerplate orig = false.

Lemma gpg_startup_grows :
  hoare (fun w => w_fs w !! sp = Some orig) (Setup.gpg_startup e)
    (fun _ w => exists k, w_fs w !! sp = Some (orig +:+ Py.take k Setup.gpg_agent_script))
    (fun w => exists k, w_fs w !! sp = Some (orig +:+ Py.take k Setup.gpg_agent_script)).
Proof.
  unfold Setup.gpg_startup, Setup.environ_HOME. rewrite HH.
  apply hoare_def; [|auto]. apply hoare_bind_ret. cbv beta zeta.
  change (Py.path_join home Setup.startup_name) with (startup_path home).
  change (Py.path_join home (Setup.startup_name +:+ ".old")) with (old_path home).
  rewrite Hsp, Hop.
  eapply hoare_bind; [apply path_exists_whole|].
  intros b; apply hoare_pure; intros ->. cbn [negb].
  eapply hoare_bind.
  - eapply hoare_bind; [apply grep_whole|].
    intros z; apply hoare_pure; intros ->. rewrite Hmark.
    eapply hoare_bind.
    { apply (hoare_ret tt (fun _ w => w_fs w !! sp = Some orig)). }
    intros u.
    eapply hoare_bind; [apply grep_whole|].
    intros z; apply hoare_pure; intros ->. rewrite Hboiler. cbn [Z.eqb Pos.eqb].
    eapply hoare_bind.
    { apply (hoare_exit _ _ _ _ _ (copy2_frame sp (Some orig) sp op Hne)).
      exact whole_is_grown. }
    intros u1.
    eapply hoare_bind.
    { apply (hoare_exit _ _ _ _ _ open_a_whole). exact whole_is_grown. }
    intros u2. apply write_grows.
  - intros u. unfold Setup.get_host. apply hoare_bind_ret.
    eapply hoare_bind; [apply emit_grown|]. intros u1.
    apply hoare_raise.
Qed.
End AppendOnly.

(** X5. When the boilerplate is not there, the startup file is never
    shortened and never missing: whatever fault strikes and wherever, it
    holds afterwards the original content followed by a leading part of
    the script (nothing of it, some of it, or all of it). *)
Theorem gpg_startup_append_keeps_original (e : Env) (w : World) (home orig : string) :
  e_HOME e = Some home ->
  w_fs w !! startup_path home = Some orig ->
  Py.contains Setup.grep_marker orig = false ->
  Py.contains Setup.boilerplate orig = false ->
  exists k,
    w_fs (snd (Setup.gpg_startup e w)) !! startup_path home
    = Some (orig +:+ Py.take k Setup.gpg_agent_script).
Proof.
  intros HH Hf Hm Hb.
  pose proof (startup_old_paths_differ home) as Hne.
  apply (hoare_final (Setup.gpg_startup e)
           (fun w => w_fs w !! startup_path home = Some orig)
           (fun w => exists k, w_fs w !! startup_path home
                               = Some (orig +:+ Py.take k Setup.gpg_agent_script)));
    [|exact Hf].
  now apply (gpg_startup_grows e _ _ orig Hne home).
Qed.

Lemma gpg_startup_append_keeps_original_witness :
  exists k,
    w_fs (snd (Setup.gpg_startup example_env
                 (example_world bashrc_plain [] [] (Some (3, 10)))))
      !! startup_path "/home/user"
    = Some (bashrc_plain +:+ Py.take k Setup.gpg_agent_script).
Proof.
  apply (gpg_startup_append_keeps_original example_env
           (example_world bashrc_plain [] [] (Some (3, 10))) "/home/user" bashrc_plain);
    vm_compute; reflexivity.
Defined.


(** ** [gpg_startup]: an insertion that is interrupted *)

(** X6. When the boilerplate is there, the startup file is moved away
    before it is written again, and an interruption shows: if the rename
    fails nothing has changed; if reading the backup or opening the new
    file fails there is no startup file any more; if the write is cut
    after [k] bytes the startup file holds the first [k] bytes of the new
    content; in the last three cases the backup holds the original.  The
    error is the one of the failed operation, and it is not turned into
    [SetupError]. *)
Theorem gpg_startup_insert_interrupted (e : Env) (home orig : string)
    (fs : gmap string string) (stdin tty : list string) (n k : nat) (dbg : bool)
    (out : list Event) :
  e_HOME e = Some home ->
  fs !! startup_path home = Some orig ->
  Py.contains Setup.grep_marker orig = false ->
  Py.contains Setup.boilerplate orig = true ->
  n <= 3 ->
  fst (Setup.gpg_startup e (mkWorld fs stdin tty (Some (n, k)) dbg out))
  = Raised (match n with 0 => OSError | _ => IOError end)
  /\ w_fs (snd (Setup.gpg_startup e (mkWorld fs stdin tty (Some (n, k)) dbg out)))
     = match n with
       | 0 => fs
       | 1 | 2 => <[old_path home := orig]> (delete (startup_path home) fs)
       | _ => <[startup_path home :=
                  Py.take k (Py.slice_to orig (Py.find Setup.boilerplate orig)
                               +:+ Setup.gpg_agent_script
                               +:+ Py.slice_from orig (Py.find Setup.boilerplate orig))]>
                (<[old_path home := orig]> fs)
       end
  /\ (n = 1 \/ n = 2 ->
      w_fs (snd (Setup.gpg_startup e (mkWorld fs stdin tty (Some (n, k)) dbg out)))
        !! startup_path home = None).
Proof.
  intros HH Hf Hm Hb Hn.
  pose proof (startup_old_paths_differ home) as Hne.
  unfold Setup.gpg_startup, Setup.environ_HOME, Setup.get_host. rewrite HH. run.
  change (Py.path_join home Setup.startup_name) with (startup_path home).
  change (Py.path_join home (Setup.startup_name +:+ ".old")) with (old_path home).
  rewrite Hf. run. rewrite Hf, Hm. run. rewrite Hf, Hb. run.
  destruct n as [|[|[|[|n]]]]; [| | | |lia]; run; rewrite ?Hf; run; fs_lookup; run;
    fs_lookup; run; cbn [fst snd w_fs].
  - repeat apply conj; try reflexivity. intros [H|H]; discriminate H.
  - repeat apply conj; reflexivity.
  - repeat apply conj; reflexivity.
  - rewrite append_nil_l, recreate_after_rename by exact Hne.
    repeat apply conj; try reflexivity. intros [H|H]; discriminate H.
Qed.

Lemma gpg_startup_insert_interrupted_witness :
  w_fs (snd (Setup.gpg_startup example_env
               (mkWorld {[ "/home/user/.bashrc" := bashrc_with_anchor ]} [] []
                  (Some (1, 0)) false [])))
    !! startup_path "/home/user" = None.
Proof.
  apply (gpg_startup_insert_interrupted example_env "/home/user" bashrc_with_anchor
           {[ "/home/user/.bashrc" := bashrc_with_anchor ]} [] [] 1 0 false []);
    first [ lia | vm_compute; reflexivity | now left ].
Defined.


(** ** The other ways through [main] *)

(** The lines typed at the account question run out before one of them
    is an answer. *)
Lemma while_exhausted bad : forall fuel req fs t f d o,
  Setup.recognised req = false ->
  Forall (fun l => accepted l = false) bad ->
  List.length bad < fuel ->
  Setup.mosrs_request_while fuel req (mkWorld fs bad t f d o)
  = (Raised EOFError,
     mkWorld fs [] t f d (o ++ repeat (RawInput account_prompt) (S (List.length bad)))).
Proof.
  induction bad as [|b bad IH]; intros fuel req fs t f d o Hreq Hbad Hfuel;
    (destruct fuel as [|fuel]; [cbn in Hfuel; lia|]).
  - now rewrite while_eof.
  - inversion Hbad as [|? ? Hb Hbad']; subst.
    rewrite while_step by exact Hreq.
    rewrite (IH fuel); auto; [|cbn in Hfuel; lia].
    cbn [List.length repeat]. now rewrite <- app_assoc.
Qed.

Lemma mosrs_request_loop_exhausted bad fs t f d o :
  Forall (fun l => accepted l = false) bad ->
  Setup.mosrs_request_loop (mkWorld fs bad t f d o)
  = (Raised EOFError,
     mkWorld fs [] t f d (o ++ repeat (RawInput account_prompt) (S (List.length bad)))).
Proof.
  intros Hbad. unfold Setup.mosrs_request_loop. cbn [w_stdin].
  apply while_exhausted; auto.
Qed.

(** X7. When the GPG agent cannot be started, [setup_mosrs_account] prints
    a warning and the arguments of the [GPGError], one per line, and
    raises the error again; [main] returns at once: the account question
    is not asked, no file is looked at, the guidance to run the script
    again is not printed, and the support line closes the output. *)
Theorem main_agent_unavailable (e : Env) (w : World) (dbg : bool) (args : list string) :
  e_on_accessdev e = false ->
  e_parse_args e = Some dbg ->
  e_check_rose e = None ->
  e_start_gpg_agent e = Some args ->
  fst (Setup.setup_mosrs_account e w) = Raised (GPGError args)
  /\ Setup.main e w
     = (Normal tt,
        mkWorld (w_fs w) (w_stdin w) (w_tty w) (w_fault w)
          (if dbg then true else w_debugging w)
          (w_out w
             ++ [Print EmptyString; Print Setup.banner; CheckRose; StartAgent;
                 Warning "GPGError in setup_mosrs_account:"]
             ++ map Info args ++ [Info Setup.support_message])).
Proof.
  intros Hacc Hparse Hrose Hagent. destruct w as [fs i t f d o]. split.
  - now rewrite (setup_mosrs_account_gpg_error e args).
  - unfold Setup.main, Setup.on_accessdev, Setup.parse_args, Setup.check_rose,
      Setup.auth_check_rose.
    rewrite Hacc, Hparse, Hrose. run.
    destruct dbg; run; rewrite (setup_mosrs_account_gpg_error e args) by assumption; run;
      cbn [w_fs w_stdin w_tty w_fault w_debugging w_out];
      now rewrite <- !app_assoc.
Qed.

Lemma main_agent_unavailable_witness :
  fst (Setup.setup_mosrs_account
         (mkEnv (Some "/home/user") false "gadi" (Some false) None
            (Some ["gpg-agent: no socket"]) (fun _ _ => None) None)
         (example_world bashrc_plain ["yes"] ["pw"] None))
  = Raised (GPGError ["gpg-agent: no socket"]).
Proof.
  apply (main_agent_unavailable
           (mkEnv (Some "/home/user") false "gadi" (Some false) None
              (Some ["gpg-agent: no socket"]) (fun _ _ => None) None)
           (example_world bashrc_plain ["yes"] ["pw"] None) false
           ["gpg-agent: no socket"]);
    reflexivity.
Defined.

(** X8. When the check of the Rose client fails, [check_rose] turns the
    [AuthError] into a [SetupError] with the same arguments; [main] then
    prints the guidance to run the script again and the support line and
    returns: the agent is not started, nothing is asked, no file is looked
    at, and the arguments of the error are not shown. *)
Theorem main_rose_unavailable (e : Env) (w : World) (dbg : bool) (args : list string) :
  e_on_accessdev e = false ->
  e_parse_args e = Some dbg ->
  e_check_rose e = Some args ->
  fst (Setup.check_rose e w) = Raised (SetupError args)
  /\ Setup.main e w
     = (Normal tt,
        mkWorld (w_fs w) (w_stdin w) (w_tty w) (w_fault w)
          (if dbg then true else w_debugging w)
          (w_out w
             ++ [Print EmptyString; Print Setup.banner; CheckRose;
                 Todo Setup.rerun_message; Info Setup.support_message])).
Proof.
  intros Hacc Hparse Hrose. destruct w as [fs i t f d o]. split.
  - unfold Setup.check_rose, Setup.auth_check_rose. rewrite Hrose. reflexivity.
  - unfold Setup.main, Setup.on_accessdev, Setup.parse_args, Setup.check_rose,
      Setup.auth_check_rose.
    rewrite Hacc, Hparse, Hrose. run.
    destruct dbg; run; cbn [w_fs w_stdin w_tty w_fault w_debugging w_out];
      now rewrite <- !app_assoc.
Qed.

Lemma main_rose_unavailable_witness :
  fst (Setup.check_rose
         (mkEnv (Some "/home/user") false "gadi" (Some false)
            (Some ["rose: command not found"]) None (fun _ _ => None) None)
         (example_world bashrc_plain ["yes"] ["pw"] None))
  = Raised (SetupError ["rose: command not found"]).
Proof.
  apply (main_rose_unavailable
           (mkEnv (Some "/home/user") false "gadi" (Some false)
              (Some ["rose: command not found"]) None (fun _ _ => None) None)
           (example_world bashrc_plain ["yes"] ["pw"] None) false
           ["rose: command not found"]);
    reflexivity.
Defined.

(** X9. When standard input ends before the account question got one of
    its four answers, the [EOFError] of [raw_input] leaves [main]: the
    question was asked once per line and once more, only the support
    line follows, and no file was looked at. *)
Theorem main_end_of_input (e : Env) (dbg : bool) (bad : list string)
    (fs : gmap string string) (tty : list string) (fault : option (nat * nat))
    (d : bool) (out : list Event) :
  e_on_accessdev e = false ->
  e_parse_args e = Some dbg ->
  e_check_rose e = None ->
  e_start_gpg_agent e = None ->
  Forall (fun l => accepted l = false) bad ->
  Setup.main e (mkWorld fs bad tty fault d out)
  = (Raised EOFError,
     mkWorld fs [] tty fault (if dbg then true else d)
       (out ++ [Print EmptyString; Print Setup.banner; CheckRose; StartAgent]
          ++ repeat (RawInput account_prompt) (S (List.length bad))
          ++ [Info Setup.support_message])).
Proof.
  intros Hacc Hparse Hrose Hagent Hbad.
  assert (Hacct : forall d' o',
            Setup.setup_mosrs_account e (mkWorld fs bad tty fault d' o')
            = (Raised EOFError,
               mkWorld fs [] tty fault d'
                 (o' ++ [StartAgent]
                     ++ repeat (RawInput account_prompt) (S (List.length bad))))).
  { intros d' o'.
    unfold Setup.setup_mosrs_account, Setup.gpg_start_gpg_agent. rewrite Hagent. run.
    rewrite (mosrs_request_loop_exhausted bad) by assumption. run.
    now rewrite <- !app_assoc. }
  unfold Setup.main, Setup.on_accessdev, Setup.parse_args, Setup.check_rose,
    Setup.auth_check_rose.
  rewrite Hacc, Hparse, Hrose. run.
  destruct dbg; run; rewrite Hacct; run; now rewrite <- !app_assoc.
Qed.

Lemma main_end_of_input_witness :
  Setup.main example_env (mkWorld ∅ ["maybe"; "later"] [] None false [])
  = (Raised EOFError,
     mkWorld ∅ [] [] None false
       ([] ++ [Print EmptyString; Print Setup.banner; CheckRose; StartAgent]
          ++ repeat (RawInput account_prompt) 3
          ++ [Info Setup.support_message])).
Proof.
  apply (main_end_of_input example_env false ["maybe"; "later"] ∅ [] None false []);
    try reflexivity.
  repeat constructor.
Defined.

(** X10. On accessdev [main] does nothing but print an empty line and the
    warning: the command line is not parsed, no collaborator is called,
    nothing is read and no file is looked at. *)
Theorem main_on_accessdev (e : Env) (w : World) :
  e_on_accessdev e = true ->
  Setup.main e w
  = (Normal tt,
     mkWorld (w_fs w) (w_stdin w) (w_tty w) (w_fault w) (w_debugging w)
       (w_out w ++ [Print EmptyString; Warning Setup.accessdev_message])).
Proof.
  intros Hacc. destruct w as [fs i t f d o].
  unfold Setup.main, Setup.on_accessdev. rewrite Hacc. run.
  cbn [w_fs w_stdin w_tty w_fault w_debugging w_out]. now rewrite <- !app_assoc.
Qed.

Lemma main_on_accessdev_witness :
  Setup.main accessdev_env (example_world bashrc_plain ["yes"] ["pw"] (Some (0, 0)))
  = (Normal tt,
     mkWorld {[ "/home/user/.bashrc" := bashrc_plain ]} ["yes"] ["pw"] (Some (0, 0)) false
       ([] ++ [Print EmptyString; Warning Setup.accessdev_message])).
Proof.
  apply (main_on_accessdev accessdev_env
           (example_world bashrc_plain ["yes"] ["pw"] (Some (0, 0))));
    reflexivity.
Defined.


(** ** [access.py]: how [main] can end *)

(** X11. [access.main] reads the password once and presets it under the
    key of the primary realm, then under the key of the nemo realm; when
    the first preset fails the second is not tried; a failure leaves as
    the [GPGError] it is; without a line to read, nothing is preset.  No
    file and no line of standard input is touched. *)
Theorem access_main_outcomes (e : Env) (fs : gmap string string) (stdin : list string)
    (pw : string) (tty : list string) (fault : option (nat * nat)) (dbg : bool)
    (out : list Event) :
  Access.main e (mkWorld fs stdin (pw :: tty) fault dbg out)
  = (match e_preset_passphrase e (MD5.hexdigest Access.realm) pw with
     | Some args => Raised (GPGError args)
     | None =>
         match e_preset_passphrase e (MD5.hexdigest Access.nemo_realm) pw with
         | Some args => Raised (GPGError args)
         | None => Normal tt
         end
     end,
     mkWorld fs stdin tty fault dbg
       (out ++ [Getpass "Please enter your NCI password: ";
                Preset (MD5.hexdigest Access.realm) pw]
            ++ match e_preset_passphrase e (MD5.hexdigest Access.realm) pw with
               | Some _ => []
               | None => [Preset (MD5.hexdigest Access.nemo_realm) pw]
               end))
  /\ Access.main e (mkWorld fs stdin [] fault dbg out)
     = (Raised EOFError,
        mkWorld fs stdin [] fault dbg (out ++ [Getpass "Please enter your NCI password: "])).
Proof.
  split.
  - unfold Access.main, Access.preset_passphrase. run.
    destruct (e_preset_passphrase e (MD5.hexdigest Access.realm) pw); run.
    + now rewrite <- !app_assoc.
    + destruct (e_preset_passphrase e (MD5.hexdigest Access.nemo_realm) pw); run;
        now rewrite <- !app_assoc.
  - reflexivity.
Qed.

(** ** [prompt_or_default]: what counts as no answer *)

Lemma lstrip_spaces (s : string) :
  forallb Py.is_space (list_ascii_of_string s) = true -> Py.lstrip s = EmptyString.
Proof.
  induction s as [|c s IH]; cbn; [reflexivity|].
  intros H. apply andb_true_iff in H as [Hc Hs]. rewrite Hc. auto.
Qed.

Lemma rstrip_keeps_first (c : ascii) (s : string) :
  Py.is_space c = false -> Py.rstrip (String c s) <> EmptyString.
Proof. intros Hc. cbn. destruct (Py.rstrip s); [now rewrite Hc | discriminate]. Qed.

Lemma strip_of_text (s : string) :
  forallb Py.is_space (list_ascii_of_string s) = false -> Py.strip s <> EmptyString.
Proof.
  unfold Py.strip. induction s as [|c s IH]; cbn [list_ascii_of_string forallb Py.lstrip];
    [discriminate|].
  destruct (Py.is_space c) eqn:Hc; cbn [andb]; [exact IH|].
  intros _. now apply rstrip_keeps_first.
Qed.

(** X12. [prompt_or_default] shows the question with its default between
    brackets and takes one line: a line of white space only (the empty
    line included) gives the default, any other line gives the line
    without the white space around it, which is not empty. *)
Theorem prompt_or_default_answer (prompt default l : string) (rest : list string)
    (fs : gmap string string) (tty : list string) (fault : option (nat * nat))
    (dbg : bool) (out : list Event) :
  Setup.prompt_or_default prompt default (mkWorld fs (l :: rest) tty fault dbg out)
  = (Normal (if forallb Py.is_space (list_ascii_of_string l) then default
             else Py.strip l),
     mkWorld fs rest tty fault dbg
       (out ++ [RawInput (prompt +:+ " [" +:+ default +:+ "]: ")]))
  /\ (forallb Py.is_space (list_ascii_of_string l) = false -> Py.strip l <> EmptyString).
Proof.
  split; [|apply strip_of_text].
  unfold Setup.prompt_or_default. run.
  destruct (forallb Py.is_space (list_ascii_of_string l)) eqn:Hsp.
  - unfold Py.strip. rewrite (lstrip_spaces l Hsp). reflexivity.
  - apply strip_of_text in Hsp. apply String.eqb_neq in Hsp. now rewrite Hsp.
Qed.

Lemma prompt_or_default_answer_witness :
  Py.strip "  No " <> EmptyString.
Proof.
  apply (prompt_or_default_answer "Do you have a MOSRS account" "yes" "  No " [] ∅ []
           None false []).
  reflexivity.
Defined.
